(** * Race-result normalization and best-result selection

    A shallow embedding of the normalization and selection logic of
    [best_results_3plus_or_realtiming_race.py] (class
    [best_race_results_per_participant]) and of
    [Single_person_results_w_top_results.py] (function
    [fetch_and_process_results]), with the properties of the specification
    stated over it.

    Python text is a sequence of Unicode code points, so a [str] is a
    [list N] here; the Hebrew column names and labels of the source are
    written out code point by code point. *)

From Stdlib Require Import ZArith NArith List String Ascii DecimalString.
From Stdlib Require Import Sorting.Sorted Sorting.Permutation.
From stdpp Require Import base decidable option list sorting gmap.

Local Open Scope N_scope.

(** ** Python values *)

Abbreviation pystr := (list N).

(** An ASCII literal of the source as a code point sequence. *)
Definition py (s : string) : pystr := map N_of_ascii (list_ascii_of_string s).

(** The scalar values a table cell or an argument can hold: [None],
    [np.nan], [pd.NaT], an [int] and a [str]. *)
Inductive pyval : Type :=
| PNone
| PNaN
| PNaT
| PInt (z : Z)
| PStr (s : pystr).

#[global] Instance pyval_eq_dec : EqDecision pyval.
Proof. solve_decision. Defined.

(** The exceptions the modelled code can let escape. *)
Inductive pyexn : Type := IndexError | ValueError | KeyError | RequestException.

Inductive result (A : Type) : Type :=
| Ok (a : A)
| Raise (e : pyexn).
Arguments Ok {A} a.
Arguments Raise {A} e.

#[global] Instance result_bind : MBind result := fun A B k r =>
  match r with
  | Ok a => k a
  | Raise e => Raise e
  end.

(** [pd.isna] on a scalar. *)
Definition isna (v : pyval) : bool :=
  match v with
  | PNone | PNaN | PNaT => true
  | PInt _ | PStr _ => false
  end.

Definition decimal (z : Z) : string := NilZero.string_of_int (Z.to_int z).

(** [str(value)]. *)
Definition str (v : pyval) : pystr :=
  match v with
  | PNone => py "None"
  | PNaN => py "nan"
  | PNaT => py "NaT"
  | PInt z => py (decimal z)
  | PStr s => s
  end.

(** The code points [str.isspace] accepts, which are the ones [str.strip()]
    and [int()] remove at both ends. *)
Definition isspace (c : N) : bool :=
  ((9 <=? c) && (c <=? 13)) || ((28 <=? c) && (c <=? 32))
  || (c =? 0x85) || (c =? 0xA0) || (c =? 0x1680)
  || ((0x2000 <=? c) && (c <=? 0x200A))
  || (c =? 0x2028) || (c =? 0x2029) || (c =? 0x202F)
  || (c =? 0x205F) || (c =? 0x3000).

Fixpoint lstrip (s : pystr) : pystr :=
  match s with
  | [] => []
  | c :: t => if isspace c then lstrip t else s
  end.

Definition rstrip (s : pystr) : pystr := rev (lstrip (rev s)).

(** [s.strip()]. *)
Definition strip (s : pystr) : pystr := rstrip (lstrip s).

Fixpoint startswith (p s : pystr) : bool :=
  match p, s with
  | [], _ => true
  | _ :: _, [] => false
  | a :: p', b :: s' => (a =? b) && startswith p' s'
  end.

(** [sub in s] on two strings. *)
Fixpoint contains (sub s : pystr) : bool :=
  startswith sub s ||
  match s with
  | [] => false
  | _ :: t => contains sub t
  end.

(** [s in [...]] on a list of strings. *)
Definition in_list (s : pystr) (l : list pystr) : bool := bool_decide (s ∈ l).

(** [s.split(sep)] for a one-character separator. *)
Fixpoint split (sep : N) (s : pystr) : list pystr :=
  match s with
  | [] => [[]]
  | c :: t =>
      if c =? sep then [] :: split sep t
      else match split sep t with
           | p :: ps => (c :: p) :: ps
           | [] => [[c]]
           end
  end.

(** The code points with a decimal digit value come in runs of ten, for
    the digits 0 to 9 in turn; these are the first code points of the runs
    of the Unicode Character Database 14.0, the one CPython 3.11 is built
    with. A later release knows a few more runs. *)
Definition decimal_zeros : list N :=
  [ 0x30; 0x660; 0x6F0; 0x7C0; 0x966; 0x9E6; 0xA66; 0xAE6; 0xB66; 0xBE6;
    0xC66; 0xCE6; 0xD66; 0xDE6; 0xE50; 0xED0; 0xF20; 0x1040; 0x1090;
    0x17E0; 0x1810; 0x1946; 0x19D0; 0x1A80; 0x1A90; 0x1B50; 0x1BB0; 0x1C40;
    0x1C50; 0xA620; 0xA8D0; 0xA900; 0xA9D0; 0xA9F0; 0xAA50; 0xABF0; 0xFF10;
    0x104A0; 0x10D30; 0x11066; 0x110F0; 0x11136; 0x111D0; 0x112F0; 0x11450;
    0x114D0; 0x11650; 0x116C0; 0x11730; 0x118E0; 0x11950; 0x11C50; 0x11D50;
    0x11DA0; 0x16A60; 0x16AC0; 0x16B50; 0x1D7CE; 0x1D7D8; 0x1D7E2; 0x1D7EC;
    0x1D7F6; 0x1E140; 0x1E2F0; 0x1E950; 0x1FBF0 ].

(** The decimal digit value of a code point, as [int()] reads it. *)
Definition digit_of (c : N) : option Z :=
  (fun zero => Z.of_N (c - zero))
    <$> List.find (fun zero => (zero <=? c) && (c <? zero + 10)) decimal_zeros.

(** The digits of an [int()] literal: decimal digits, single underscores
    allowed between two digits. *)
Fixpoint int_digits (acc : Z) (after_digit : bool) (s : pystr) : option Z :=
  match s with
  | [] => if after_digit then Some acc else None
  | c :: t =>
      match digit_of c with
      | Some d => int_digits (10 * acc + d) true t
      | None => if (c =? 95) && after_digit then int_digits acc false t else None
      end
  end.

(** The white space [int()] skips at both ends: the ASCII white space of
    C and the white space outside ASCII, which is the set of [str.isspace]
    without the separators U+001C to U+001F. *)
Definition int_space (c : N) : bool :=
  isspace c && negb ((28 <=? c) && (c <=? 31)).

Fixpoint int_lstrip (s : pystr) : pystr :=
  match s with
  | [] => []
  | c :: t => if int_space c then int_lstrip t else s
  end.

(** [sys.int_info.default_max_str_digits]: a literal with more decimal
    digits is refused. *)
Definition max_str_digits : N := 4300.

(** [int(s)]: white space is skipped at both ends, one sign is allowed,
    the digits are decimal digits of any script; [None] stands for
    [ValueError]. *)
Definition py_int (s : pystr) : option Z :=
  let literal t :=
    if max_str_digits
       <? N.of_nat (length (List.filter
                              (fun c => bool_decide (is_Some (digit_of c))) t))
    then None
    else int_digits 0 false t in
  match rev (int_lstrip (rev (int_lstrip s))) with
  | 43 :: t => literal t
  | 45 :: t => Z.opp <$> literal t
  | t => literal t
  end.

(** ** Hebrew text of the source *)

Module He.

Definition alef : N := 0x5D0.
Definition bet : N := 0x5D1.
Definition he : N := 0x5D4.
Definition vav : N := 0x5D5.
Definition zayin : N := 0x5D6.
Definition het : N := 0x5D7.
Definition tet : N := 0x5D8.
Definition yod : N := 0x5D9.
Definition final_mem : N := 0x5DD.
Definition mem : N := 0x5DE.
Definition final_nun : N := 0x5DF.
Definition ayin : N := 0x5E2.
Definition pe : N := 0x5E4.
Definition tsadi : N := 0x5E6.
Definition qof : N := 0x5E7.
Definition resh : N := 0x5E8.
Definition shin : N := 0x5E9.
Definition tav : N := 0x5EA.
Definition gershayim : N := 0x5F4.
Definition sp : N := 0x20.
Definition quote : N := 0x22.
Definition hyphen : N := 0x2D.
Definition underscore : N := 0x5F.

(** קמ with the ASCII double quote between the two letters, the way the
    source spells the kilometre abbreviation. *)
Definition km_quoted : pystr := [qof; quote; mem].

(** קמ *)
Definition km_plain : pystr := [qof; mem].

(** חצי *)
Definition hatzi : pystr := [het; tsadi; yod].

(** מרתון *)
Definition marathon : pystr := [mem; resh; tav; vav; final_nun].

(** תחרותי *)
Definition competitive : pystr := [tav; het; resh; vav; tav; yod].

(** מקצה, the category column. *)
Definition col_category : pystr := [mem; qof; tsadi; he].

(** זמן אישי, the personal time column. *)
Definition col_personal : pystr :=
  [zayin; mem; final_nun; sp; alef; yod; shin; yod].

(** תוצאה, the result column. *)
Definition col_result : pystr := [tav; vav; tsadi; alef; he].

(** תוצאה מיטבית, the column that receives the chosen time text. *)
Definition col_best_text : pystr :=
  col_result ++ [sp; mem; yod; tet; bet; yod; tav].

(** הערה, the note column. *)
Definition col_note : pystr := [he; ayin; resh; he].

(** שם פרטי, the given name column. *)
Definition col_first : pystr := [shin; final_mem; sp; pe; resh; tet; yod].

(** שם משפחה, the family name column. *)
Definition col_last : pystr := [shin; final_mem; sp; mem; shin; pe; het; he].

End He.

(** ** Tables *)

(** A [timedelta64] value in nanoseconds; [None] is [NaT]. *)
Abbreviation timedelta := (option Z).

(** A row of a DataFrame: its index label, its cells by column name, and
    the [race_time] column, which is the one column of the frame that
    holds durations. *)
Record frame_row : Type := FrameRow {
  label : nat;
  cell : gmap pystr pyval;
  race_time : timedelta
}.

Definition col_normalized : pystr := py "normalized_distance".

(** The row's value in the [normalized_distance] column. *)
Definition normalized_distance_of (r : frame_row) : pyval :=
  default PNaN (cell r !! col_normalized).

Definition set_cell (col : pystr) (v : pyval) (r : frame_row) : frame_row :=
  FrameRow (label r) (<[col := v]> (cell r)) (race_time r).

Definition set_label (i : nat) (r : frame_row) : frame_row :=
  FrameRow i (cell r) (race_time r).

Definition set_race_time (t : timedelta) (r : frame_row) : frame_row :=
  FrameRow (label r) (cell r) t.

(** What the page of one participant gives after [requests.get] and the
    HTML parse: the request can time out, fail otherwise, the page can
    hold no table, or a table whose rows map column names to cells. *)
Inductive response : Type :=
| Timeout
| RequestFailed
| NoTable
| Table (rows : list (gmap pystr pyval)).

(** Order of [sort_values(ascending=True)] on a duration column: [NaT]
    goes last. *)
Definition td_le (a b : timedelta) : Prop :=
  match a, b with
  | Some x, Some y => (x <= y)%Z
  | _, None => True
  | None, Some _ => False
  end.

#[global] Instance td_le_dec a b : Decision (td_le a b).
Proof. destruct a, b; simpl; apply _. Defined.

Definition by_key {A} (key : A -> timedelta) : relation A :=
  fun x y => td_le (key x) (key y).

(** [DataFrame.sort_values] on one key column. Its default algorithm is
    quicksort, which fixes no order between rows of equal key, so the
    embedding takes any function that returns the rows rearranged in
    ascending key order. *)
Record sorter : Type := Sorter {
  sort_values : forall A : Type, (A -> timedelta) -> list A -> list A;
  sort_values_perm : forall A key l, Permutation (sort_values A key l) l;
  sort_values_sorted :
    forall A key l, StronglySorted (by_key key) (sort_values A key l)
}.
Arguments sort_values S {A} key l : rename.

(** [Series.idxmin()] on the duration column of a non-empty selection: the
    label of the first row that holds the smallest duration, [NaT] cells
    skipped. With nothing but [NaT] the call does not return: pandas
    raises from [idxmin] itself or from the [.loc] that follows, according
    to its release; the embedding raises [ValueError]. *)
Definition better (best : option (nat * Z)) (r : frame_row) : option (nat * Z) :=
  match race_time r, best with
  | None, _ => best
  | Some t, None => Some (label r, t)
  | Some t, Some (_, tb) => if (t <? tb)%Z then Some (label r, t) else best
  end.

Definition idxmin (rows : list frame_row) : result nat :=
  match foldl better None rows with
  | Some (i, _) => Ok i
  | None => Raise ValueError
  end.

(** [df.loc[i]] on a frame with distinct labels. *)
Definition loc (df : list frame_row) (i : nat) : result frame_row :=
  match List.find (fun r => Nat.eqb (label r) i) df with
  | Some r => Ok r
  | None => Raise KeyError
  end.

Fixpoint mapM {A B} (f : A -> result B) (l : list A) : result (list B) :=
  match l with
  | [] => Ok []
  | a :: t => b ← f a; bs ← mapM f t; Ok (b :: bs)
  end.

(** A duration parser for clock text [h:mm:ss], in nanoseconds, which is
    what [pd.to_timedelta] gives on such text; anything else goes to
    [NaT]. It instantiates the parser in the worked examples. *)
Definition clock_field (s : pystr) : option Z :=
  if forallb (fun c => (48 <=? c) && (c <=? 57)) s then int_digits 0 false s
  else None.

Definition clock (v : pyval) : timedelta :=
  match v with
  | PStr s =>
      match split 58 s with
      | [h; m; sec] =>
          h' ← clock_field h; m' ← clock_field m; s' ← clock_field sec;
          Some (((h' * 60 + m') * 60 + s') * 1000000000)%Z
      | _ => None
      end
  | _ => None
  end.

(** ** The class [best_race_results_per_participant] *)

Module BestResults.

(** [normalize_year]: the [int] and [str] branches; [None] is the
    function's own result for a value it reads no year from. *)
Definition normalize_year (y : pyval) : result (option Z) :=
  if isna y then Ok None
  else match y with
       | PInt z => Ok (Some z)
       | PStr s =>
           if contains (py "/") s then
             match split 47 s !! 2%nat with
             | None => Raise IndexError
             | Some part =>
                 match py_int part with
                 | None => Raise ValueError
                 | Some year =>
                     Ok (Some (if (year <? 100)%Z
                               then (year + (if (25 <? year)%Z then 1900 else 2000))%Z
                               else year))
                 end
             end
           else match py_int s with
                | Some year => Ok (Some year)
                | None => Ok None
                end
       | _ => Ok None
       end.

Definition aliases_10K : list pystr :=
  [ py "10 " ++ He.km_quoted; py "10" ++ He.km_quoted; py "9800"; py "10000";
    py "10 " ++ He.km_plain ].

Definition aliases_21K : list pystr :=
  [ py "21097"; py "21 " ++ He.km_quoted; py "21000"; py "21K"; py "21k";
    He.hatzi ++ [He.sp] ++ He.marathon;
    He.hatzi ++ [He.sp] ++ He.marathon ++ [He.sp] ++ He.competitive;
    He.hatzi ++ [He.hyphen] ++ He.marathon;
    He.hatzi ++ [He.underscore] ++ He.marathon ].

Definition aliases_42K : list pystr := [ py "42195"; py "42K"; py "42k" ].

(** [normalize_distance]; [np.nan] is the "unknown" outcome. *)
Definition normalize_distance (value : pyval) : pyval :=
  if isna value || bool_decide (strip (str value) = []) then PNaN
  else
    let s := strip (str value) in
    if in_list s aliases_10K then PStr (py "10K")
    else if in_list s aliases_21K then PStr (py "21K")
    else if in_list s aliases_42K then PStr (py "42K")
    else if contains (py "15") s then PStr (py "15K")
    else if contains (py "5") s && negb (contains (py "2") s) then PStr (py "5K")
    else PNaN.

Definition null_times : list pystr :=
  [ py "00:00:00"; py "0"; []; py "NaT"; py "None" ].

(** The text [row.get(col, default)] gives, through [str] and [strip];
    the default is the empty text. *)
Definition time_text (row : gmap pystr pyval) (col : pystr) : pystr :=
  strip (str (default (PStr []) (row !! col))).

(** The [for col in [...]] loop of [choose_best_time_string]. *)
Fixpoint first_valid (row : gmap pystr pyval) (cols : list pystr) : pystr :=
  match cols with
  | [] => []
  | col :: cols' =>
      let val := time_text row col in
      if negb (in_list val null_times) then val else first_valid row cols'
  end.

Definition choose_best_time_string (row : gmap pystr pyval) : pystr :=
  first_valid row [He.col_personal; He.col_result].

Section Pipeline.

(** [pd.to_timedelta(..., errors="coerce")] on one value. *)
Variable to_timedelta : pyval -> timedelta.

(** The lookup of one participant's page by given and family name. *)
Variable fetch : pystr -> pystr -> response.

Variable S : sorter.

(** The three derived columns of one row: [normalized_distance], the
    chosen time text and [race_time]. A frame without the category column
    raises [KeyError]. *)
Definition derive (i : nat) (row : gmap pystr pyval) : result frame_row :=
  match row !! He.col_category with
  | None => Raise KeyError
  | Some v =>
      let row1 := <[col_normalized := normalize_distance v]> row in
      let text := choose_best_time_string row1 in
      Ok (FrameRow i (<[He.col_best_text := PStr text]> row1)
                   (to_timedelta (PStr text)))
  end.

Fixpoint data_frame (i : nat) (rows : list (gmap pystr pyval))
  : result (list frame_row) :=
  match rows with
  | [] => Ok []
  | row :: rows' =>
      r ← derive i row; rs ← data_frame (Datatypes.S i) rows'; Ok (r :: rs)
  end.

(** [df[df["normalized_distance"] == category]] *)
Definition in_category (category : pystr) (r : frame_row) : bool :=
  bool_decide (normalized_distance_of r = PStr category).

(** The selection at the end of [fetch_best_result], from the category
    filter to the marked copy of the best row. *)
Definition best_in_category (first_name last_name category : pystr)
  (df : list frame_row) : result (option frame_row) :=
  let df_cat := List.filter (in_category category) df in
  match df_cat with
  | [] => Ok None
  | _ :: _ =>
      best_idx ← idxmin df_cat;
      best_row ← loc df_cat best_idx;
      Ok (Some (set_cell He.col_note (PStr (py "Best Result"))
                 (set_cell He.col_last (PStr last_name)
                   (set_cell He.col_first (PStr first_name) best_row))))
  end.

Definition fetch_best_result (first_name last_name category : pystr)
  : result (option frame_row) :=
  match fetch first_name last_name with
  | Timeout => Ok None
  | RequestFailed => Ok None
  | NoTable => Ok None
  | Table [] => Ok None
  | Table rows =>
      df ← data_frame 0 rows;
      best_in_category first_name last_name category df
  end.

(** The loop of [best_results_for_category] over [names_list]. *)
Fixpoint collect (names_list : list (pystr * pystr)) (category : pystr)
  : result (list frame_row) :=
  match names_list with
  | [] => Ok []
  | (first_name, last_name) :: rest =>
      best_row ← fetch_best_result first_name last_name category;
      best_results ← collect rest category;
      Ok (match best_row with
          | Some r => r :: best_results
          | None => best_results
          end)
  end.

(** [reset_index(drop=True)] *)
Definition reset_index (df : list frame_row) : list frame_row :=
  imap set_label df.

(** The re-parse of the chosen time text into [race_time]. *)
Definition reparse (r : frame_row) : result frame_row :=
  match cell r !! He.col_best_text with
  | None => Raise KeyError
  | Some v => Ok (set_race_time (to_timedelta v) r)
  end.

(** [best_results_for_category]; [Ok None] is the return without a frame
    when nothing was collected. The Excel export is left out. *)
Definition best_results_for_category (names_list : list (pystr * pystr))
  (category : pystr) : result (option (list frame_row)) :=
  best_results ← collect names_list category;
  match best_results with
  | [] => Ok None
  | _ :: _ =>
      df_best ← mapM reparse (reset_index best_results);
      Ok (Some (sort_values S race_time df_best))
  end.

End Pipeline.

End BestResults.

(** ** The script [Single_person_results_w_top_results.py] *)

Module SinglePerson.

Definition aliases_10K : list pystr :=
  [ py "10 " ++ He.km_quoted; py "10" ++ He.km_quoted; py "9800"; py "10000";
    py "10 " ++ He.km_plain ].

Definition aliases_21K : list pystr :=
  [ py "21097"; py "21000"; py "21K"; py "21k" ].

Definition aliases_42K : list pystr := [ py "42195"; py "42K"; py "42k" ].

(** The inner [normalize_distance] of [fetch_and_process_results]. *)
Definition normalize_distance (value : pyval) : pyval :=
  if isna value || bool_decide (strip (str value) = []) then PNaN
  else
    let s := strip (str value) in
    if in_list s aliases_10K then PStr (py "10K")
    else if in_list s aliases_21K then PStr (py "21K")
    else if in_list s aliases_42K then PStr (py "42K")
    else if contains (py "15") s then PStr (py "15K")
    else if contains (py "5") s && negb (contains (py "2") s) then PStr (py "5K")
    else PNaN.

Definition null_times : list pyval :=
  [ PStr (py "00:00:00"); PStr (py "0"); PStr []; PNone; PNaN ].

Definition excluded : list pyval := [ PStr (py "30000"); PStr (py "7000") ].

Definition order : list pystr :=
  [ py "42K"; py "21K"; py "15K"; py "10K"; py "5K" ].

(** [order.index(x)] *)
Fixpoint index_of (x : pystr) (l : list pystr) : option nat :=
  match l with
  | [] => None
  | y :: l' => if bool_decide (x = y) then Some 0%nat
               else Datatypes.S <$> index_of x l'
  end.

(** [order.index(x) if x in order else len(order)] *)
Definition order_key (x : pyval) : nat :=
  match x with
  | PStr s => default (length order) (index_of s order)
  | _ => length order
  end.

(** Order of two strings, code point by code point: the order in which
    [groupby] lists its keys. *)
Fixpoint str_ltb (a b : pystr) : bool :=
  match a, b with
  | _, [] => false
  | [], _ :: _ => true
  | x :: a', y :: b' => (x <? y) || ((x =? y) && str_ltb a' b')
  end.

Fixpoint insert_key (k : pystr) (keys : list pystr) : list pystr :=
  match keys with
  | [] => [k]
  | k' :: rest =>
      if str_ltb k k' then k :: keys
      else if str_ltb k' k then k' :: insert_key k rest
      else keys
  end.

(** The key of the group a row falls in; the column holds the strings
    and [np.nan] that [normalize_distance] returns, and [groupby] leaves
    out what is not a key. *)
Definition group_key (r : frame_row) : option pystr :=
  match normalized_distance_of r with
  | PStr s => Some s
  | _ => None
  end.

Definition group_keys (df : list frame_row) : list pystr :=
  foldr insert_key [] (omap group_key df).

Definition group (k : pystr) (df : list frame_row) : list frame_row :=
  List.filter (fun r => bool_decide (normalized_distance_of r = PStr k)) df.

(** [notna() & ~isin(["30000", "7000"])] *)
Definition for_best (r : frame_row) : bool :=
  negb (isna (normalized_distance_of r))
  && negb (bool_decide (normalized_distance_of r ∈ excluded)).

(** The best rows: [groupby(...)["race_time"].idxmin()], [df.loc] and the
    note. *)
Definition best_rows (df : list frame_row) : result (list frame_row) :=
  let df_for_best := List.filter for_best df in
  best_indices ←
    mapM (fun k => idxmin (group k df_for_best)) (group_keys df_for_best);
  best ← mapM (loc df) best_indices;
  Ok (map (set_cell He.col_note (PStr (py "Best Result"))) best).

Section Pipeline.

(** [pd.to_timedelta] on one value, with [NaT] where the call raises:
    [parse_time] turns every exception into [pd.NaT]. *)
Variable to_timedelta : pyval -> timedelta.

Variable S : sorter.

Definition parse_time (row : gmap pystr pyval) : timedelta :=
  match row !! He.col_personal with
  | None => None
  | Some time_str =>
      if bool_decide (time_str ∈ null_times) then
        match row !! He.col_result with
        | None => None
        | Some time_str' => to_timedelta time_str'
        end
      else to_timedelta time_str
  end.

Definition derive (i : nat) (row : gmap pystr pyval) : result frame_row :=
  match row !! He.col_category with
  | None => Raise KeyError
  | Some v =>
      let row1 := <[col_normalized := normalize_distance v]> row in
      Ok (FrameRow i row1 (parse_time row1))
  end.

Fixpoint data_frame (i : nat) (rows : list (gmap pystr pyval))
  : result (list frame_row) :=
  match rows with
  | [] => Ok []
  | row :: rows' =>
      r ← derive i row; rs ← data_frame (Datatypes.S i) rows'; Ok (r :: rs)
  end.

(** [sort_values("order_key")] *)
Definition ordered (best : list frame_row) : list frame_row :=
  sort_values S
    (fun r => Some (Z.of_nat (order_key (normalized_distance_of r)))) best.

(** [fetch_and_process_results] from the fetched page on; the result is
    the pair [(best_rows, df)]. A failed request raises, a page without a
    table raises [ValueError], and so does [max] over no rows. The Excel
    export is left out. *)
Definition fetch_and_process_results (page : response)
  : result (list frame_row * list frame_row) :=
  match page with
  | Timeout => Raise RequestException
  | RequestFailed => Raise RequestException
  | NoTable => Raise ValueError
  | Table [] => Raise ValueError
  | Table rows =>
      df ← data_frame 0 rows;
      best ← best_rows df;
      Ok (ordered best, df)
  end.

End Pipeline.

End SinglePerson.

(** ** The participant filters of the class *)

Module Participants.

(** שנת לידה, the year of birth column. *)
Definition col_year : pystr :=
  [He.shin; 0x5E0; He.tav; He.sp; 0x5DC; He.yod; 0x5D3; He.he].

(** מגדר, the gender column. *)
Definition col_gender : pystr := [He.mem; 0x5D2; 0x5D3; He.resh].


(** The participants table: its column names and its rows. A cell that a
    row does not hold is [None], which is what pandas fills a short row
    with. *)
Record roster : Type := Roster {
  columns : list pystr;
  entries : list (gmap pystr pyval)
}.

Definition cell_of (col : pystr) (row : gmap pystr pyval) : pyval :=
  default PNone (row !! col).

(** What the filters can let escape: the exceptions of [pyexn], the
    [TypeError] of a membership test on [None], and the [re.error] of a
    pattern that does not compile. *)
Inductive failure : Type :=
| Escaped (e : pyexn)
| TypeError
| PatternError.

Inductive attempt (A : Type) : Type :=
| Returned (a : A)
| Failed (e : failure).
Arguments Returned {A} a.
Arguments Failed {A} e.

#[global] Instance attempt_bind : MBind attempt := fun A B k r =>
  match r with
  | Returned a => k a
  | Failed e => Failed e
  end.

Definition lift {A} (r : result A) : attempt A :=
  match r with
  | Ok a => Returned a
  | Raise e => Failed (Escaped e)
  end.

(** [df[col]] *)
Definition getitem (col : pystr) (df : roster) : attempt (list pyval) :=
  if bool_decide (col ∈ columns df) then Returned (map (cell_of col) (entries df))
  else Failed (Escaped KeyError).

(** [df[col] = values], on as many values as the frame has rows. *)
Definition setitem (col : pystr) (values : list pyval) (df : roster) : roster :=
  Roster (if bool_decide (col ∈ columns df) then columns df
          else columns df ++ [col])
         (zip_with (fun v row => <[col := v]> row) values (entries df)).

Fixpoint mask_rows {A} (mask : list bool) (rows : list A) : list A :=
  match mask, rows with
  | b :: mask', r :: rows' =>
      if b then r :: mask_rows mask' rows' else mask_rows mask' rows'
  | _, _ => []
  end.

(** [df[mask]] for a boolean mask with one entry for each row. *)
Definition select (mask : list bool) (df : roster) : roster :=
  Roster (columns df) (mask_rows mask (entries df)).

(** What [normalize_year] leaves in the column: the year, or a missing
    value. *)
Definition year_cell (y : option Z) : pyval :=
  match y with
  | Some z => PInt z
  | None => PNaN
  end.

(** [column >= min_year] and [column <= max_year] on one cell; a
    comparison with a missing value is [False]. *)
Definition ge_year (min_year : Z) (v : pyval) : bool :=
  match v with
  | PInt y => (min_year <=? y)%Z
  | _ => false
  end.

Definition le_year (max_year : Z) (v : pyval) : bool :=
  match v with
  | PInt y => (y <=? max_year)%Z
  | _ => false
  end.

Definition canonical : list pystr :=
  [ py "5K"; py "10K"; py "15K"; py "21K"; py "42K" ].

(** [column.apply(lambda x: str(self.normalize_distance(str(x)))) == keyword] *)
Definition normalized_equals (race_keyword : pystr) (races : list pyval)
  : list bool :=
  map (fun x => bool_decide
                  (str (BestResults.normalize_distance (PStr (str x)))
                   = race_keyword)) races.

(** [list(df[[given name, family name]].itertuples(index=False, name=None))] *)
Definition names (df : roster) : attempt (list (pyval * pyval)) :=
  if bool_decide (He.col_first ∈ columns df)
     && bool_decide (He.col_last ∈ columns df)
  then Returned (map (fun row => (cell_of He.col_first row,
                                  cell_of He.col_last row)) (entries df))
  else Failed (Escaped KeyError).


Section Filters.

(** The regular expression search of [str.contains(pattern, case=False)]
    on one text: [None] for a pattern that does not compile. *)
Variable search : pystr -> option (pystr -> bool).

(** [str.lower] *)
Variable lower : pystr -> pystr.

(** [column.astype(str).str.contains(pattern, case=False, na=False)] *)
Definition str_contains (pattern : pystr) (values : list pyval)
  : attempt (list bool) :=
  match search pattern with
  | Some found => Returned (map (fun v => found (str v)) values)
  | None => Failed PatternError
  end.

Definition get_filtered_names_3plus_realtiming
  (min_year max_year : option Z) (gender race_keyword : option pystr)
  (participants_table_df : roster) : attempt (list (pyval * pyval)) :=
  let df := participants_table_df in
  years ← getitem col_year df;
  years ← lift (mapM BestResults.normalize_year years);
  let df := setitem col_year (map year_cell years) df in
  df ← match min_year with
       | Some m =>
           years ← getitem col_year df;
           Returned (select (map (ge_year m) years) df)
       | None => Returned df
       end;
  df ← match max_year with
       | Some m =>
           years ← getitem col_year df;
           Returned (select (map (le_year m) years) df)
       | None => Returned df
       end;
  df ← match gender with
       | Some g =>
           genders ← getitem col_gender df;
           Returned (select (map (fun v => bool_decide (v = PStr g)) genders) df)
       | None => Returned df
       end;
  df ← match race_keyword with
       | Some keyword =>
           races ← getitem He.col_category df;
           mask ← str_contains keyword races;
           let mask :=
             if negb (existsb (fun b => b) mask) && in_list keyword canonical
             then normalized_equals keyword races
             else mask in
           Returned (select mask df)
       | None => Returned df
       end;
  names df.




End Filters.

End Participants.

(** ** A sorter *)

#[global] Instance td_le_trans : Transitive td_le.
Proof. intros [x|] [y|] [z|]; simpl; try tauto; lia. Qed.

#[global] Instance td_le_total : Total td_le.
Proof. intros [x|] [y|]; simpl; try tauto; lia. Qed.

#[global] Instance by_key_dec {A} (key : A -> timedelta) x y :
  Decision (by_key key x y) := td_le_dec (key x) (key y).

#[global] Instance by_key_trans {A} (key : A -> timedelta) : Transitive (by_key key).
Proof. intros x y z. unfold by_key. apply td_le_trans. Qed.

#[global] Instance by_key_total {A} (key : A -> timedelta) : Total (by_key key).
Proof. intros x y. unfold by_key. apply td_le_total. Qed.

Definition merge_sorter : sorter :=
  Sorter (fun A key => merge_sort (by_key key))
         (fun A key l => merge_sort_Permutation (by_key key) l)
         (fun A key l => StronglySorted_merge_sort (by_key key) l).

(** ** Vocabulary of the statements and data of the examples *)

(** The closed set of outcomes of the normalizer: the five categories and
    [np.nan] for unknown. *)
Definition categories : list pyval :=
  [ PStr (py "42K"); PStr (py "21K"); PStr (py "15K"); PStr (py "10K");
    PStr (py "5K"); PNaN ].

(** The label of the specification's example: 25, a space, and the
    kilometre abbreviation written with the Hebrew gershayim. *)
Definition label_25_km : pystr := py "25 " ++ [He.qof; He.gershayim; He.mem].

Ltac in_categories :=
  unfold categories; rewrite !elem_of_cons; tauto.

(** Text without white space at either end. *)
Definition trimmed (s : pystr) : bool :=
  match s with
  | [] => true
  | c :: _ => negb (isspace c) && negb (isspace (List.last s c))
  end.

(** A row with a personal time and a result. *)
Definition timed_row (p r : string) : gmap pystr pyval :=
  <[He.col_personal := PStr (py p)]> (<[He.col_result := PStr (py r)]> ∅).

(** [str_ltb] as a relation. *)
Definition str_lt (a b : pystr) : Prop := SinglePerson.str_ltb a b = true.

(** The row carries the note "Best Result". *)
Definition marked (b : frame_row) : Prop :=
  cell b !! He.col_note = Some (PStr (py "Best Result")).

(** The row holds a duration, and no row of the frame in the same
    category holds a smaller one. *)
Definition fastest_in (df : list frame_row) (b : frame_row) : Prop :=
  exists tb, race_time b = Some tb
    /\ forall r u, r ∈ df ->
         normalized_distance_of r = normalized_distance_of b ->
         race_time r = Some u -> (tb <= u)%Z.

(** A normalized row: label, category and duration in seconds. *)
Definition run (i : nat) (category : string) (seconds : Z) : frame_row :=
  FrameRow i {[ col_normalized := PStr (py category) ]}
           (Some (seconds * 1000000000)%Z).

(** Three half marathons of one participant: 1:45:00, 1:50:00, 1:40:00. *)
Definition three_half_marathons : list frame_row :=
  [ run 0 "21K" 6300; run 1 "21K" 6600; run 2 "21K" 6000 ].

(** The row with "Best Result" written in its note column. *)
Definition note (r : frame_row) : frame_row :=
  set_cell He.col_note (PStr (py "Best Result")) r.

(** The row is a row of the frame in category [k], fastest there. *)
Definition selected (df : list frame_row) (k : pystr) (r : frame_row) : Prop :=
  r ∈ df /\ normalized_distance_of r = PStr k /\ fastest_in df r.

(** The categories of the fixed priority list. *)
Definition in_order (x : pyval) : Prop := x ∈ map PStr SinglePerson.order.

(** Order of two rows by the order key of their categories. *)
Definition order_le (a b : frame_row) : Prop :=
  (SinglePerson.order_key (normalized_distance_of a)
   <= SinglePerson.order_key (normalized_distance_of b))%nat.


(** A result row of a participant's page. *)
Definition result_row (category personal result : string) : gmap pystr pyval :=
  <[He.col_category := PStr (py category)]> (timed_row personal result).

(** The best row [fetch_best_result] returns for a one-row page. *)
Definition fetched (first_name category personal result chosen : string)
  (seconds : Z) : frame_row :=
  note (set_cell He.col_last (PStr (py "Runner"))
         (set_cell He.col_first (PStr (py first_name))
            (FrameRow 0
               (<[He.col_best_text := PStr (py chosen)]>
                  (<[col_normalized := PStr (py "10K")]>
                     (result_row category personal result)))
               (Some (seconds * 1000000000)%Z)))).

(** Participants A, B and C: the lookup of B times out, A ran the 10K in
    1:30:00 and C in 1:25:00. *)
Definition abc_fetch (first_name last_name : pystr) : response :=
  if bool_decide (first_name = py "A") then
    Table [result_row "10000" "1:30:00" "1:31:00"]
  else if bool_decide (first_name = py "C") then
    Table [result_row "10000" "1:25:00" "1:26:00"]
  else Timeout.

(** The names list of the example. *)
Definition abc : list (pystr * pystr) :=
  [ (py "A", py "Runner"); (py "B", py "Runner"); (py "C", py "Runner") ].

(** A page with one 10K row whose two time cells hold the null time. *)
Definition unfinished_page : response :=
  Table [result_row "10000" "00:00:00" "00:00:00"].

(** A page with one 10K row whose two time cells are empty. *)
Definition untimed_page : response :=
  Table [result_row "10000" EmptyString EmptyString].

(** A page of the single-person script with a finished 10K and an
    unfinished one, whose two time cells hold the null time. *)
Definition unfinished_season : response :=
  Table [ result_row "10000" "0:50:00" "0:50:10";
          result_row "10000" "00:00:00" "00:00:00" ].

(** A normalized 10K row without a duration. *)
Definition untimed_run : frame_row :=
  FrameRow 0 {[ col_normalized := PStr (py "10K") ]} None.

(** ** Vocabulary of the further properties *)

(** Text made of white space only. *)
Definition blank (w : pystr) : Prop := Forall (fun c => isspace c = true) w.

(** The labels of the class's 21K list that the single-person script's
    list does not hold: 21 with the kilometre abbreviation and the four
    Hebrew half-marathon renderings. *)
Definition class_only_21K : list pystr :=
  [ py "21 " ++ He.km_quoted;
    He.hatzi ++ [He.sp] ++ He.marathon;
    He.hatzi ++ [He.sp] ++ He.marathon ++ [He.sp] ++ He.competitive;
    He.hatzi ++ [He.hyphen] ++ He.marathon;
    He.hatzi ++ [He.underscore] ++ He.marathon ].

(** The number of slashes in a text. *)
Definition slashes (s : pystr) : nat :=
  length (List.filter (fun c => c =? 47) s).

(** The row is the first of the frame's rows in its category that holds
    the duration [t]: the rows of the category before it hold a larger
    duration or none. *)
Definition first_fastest (df : list frame_row) (r : frame_row) : Prop :=
  exists d1 d2 t,
    df = d1 ++ r :: d2 /\ race_time r = Some t
    /\ forall r' u, r' ∈ d1 ->
         normalized_distance_of r' = normalized_distance_of r ->
         race_time r' = Some u -> (t < u)%Z.

(** Two rows of one category with the same duration, and a slower one
    before them. *)
Definition tied_runs : list frame_row :=
  [ run 0 "10K" 3100; run 1 "10K" 3000; run 2 "10K" 3000 ].

(** Order of two rows by strictly increasing order key. *)
Definition order_lt (a b : frame_row) : Prop :=
  (SinglePerson.order_key (normalized_distance_of a)
   < SinglePerson.order_key (normalized_distance_of b))%nat.

(** A page of the single-person script: two 10K runs, a marathon, a row
    without a known category and a 5K. *)
Definition season_page : response :=
  Table [ result_row "10000" "0:52:10" "0:52:30";
          result_row "42195" "3:58:00" "3:58:40";
          result_row "relay" "1:10:00" "1:10:00";
          result_row "10 km" "0:50:05" "0:50:20";
          result_row "5000" "0:24:00" "0:24:10" ].

(** What a row of the aggregated frame is: it carries the note, is in the
    category, holds the duration its chosen time text parses to, which is
    no [NaT], and bears the names of a participant of the list. *)
Definition aggregate_row (to_timedelta : pyval -> timedelta)
  (names_list : list (pystr * pystr)) (category : pystr) (r : frame_row)
  : Prop :=
  marked r
  /\ normalized_distance_of r = PStr category
  /\ is_Some (race_time r)
  /\ (exists text, cell r !! He.col_best_text = Some (PStr text)
        /\ race_time r = to_timedelta (PStr text))
  /\ exists first_name last_name,
       (first_name, last_name) ∈ names_list
       /\ cell r !! He.col_first = Some (PStr first_name)
       /\ cell r !! He.col_last = Some (PStr last_name).

(** Two outcomes of the aggregation that differ at most in the order of
    rows of equal duration and in the index labels: both without a frame,
    both raising, or two frames with the same rows up to the labels and
    the same column of durations. *)
Definition same_standings (a b : result (option (list frame_row))) : Prop :=
  match a, b with
  | Ok None, Ok None => True
  | Ok (Some out1), Ok (Some out2) =>
      Permutation (map (set_label 0) out1) (map (set_label 0) out2)
      /\ map race_time out1 = map race_time out2
  | Raise _, Raise _ => True
  | _, _ => False
  end.


(** The given and the family name of a row of the participants table. *)
Definition name_of (row : gmap pystr pyval) : pyval * pyval :=
  (Participants.cell_of He.col_first row, Participants.cell_of He.col_last row).

(** The year [normalize_year] reads from the row's year of birth, if it
    returns one. *)
Definition born (row : gmap pystr pyval) : option Z :=
  match BestResults.normalize_year
          (Participants.cell_of Participants.col_year row) with
  | Ok y => y
  | Raise _ => None
  end.

(** The row passes the bounds on the year of birth that are given: its
    year is known and within them. *)
Definition born_within (min_year max_year : option Z)
  (row : gmap pystr pyval) : Prop :=
  (forall m, min_year = Some m -> exists y, born row = Some y /\ (m <= y)%Z)
  /\ (forall m, max_year = Some m -> exists y, born row = Some y /\ (y <= m)%Z).

(** The row holds the gender asked for, if one is. *)
Definition of_gender (gender : option pystr) (row : gmap pystr pyval) : Prop :=
  forall g, gender = Some g ->
    Participants.cell_of Participants.col_gender row = PStr g.

(** The text of the row's category cell. *)
Definition race_text (row : gmap pystr pyval) : pystr :=
  str (Participants.cell_of He.col_category row).

(** The row's category text normalizes to the keyword. *)
Definition race_normalizes_to (keyword : pystr) (row : gmap pystr pyval)
  : Prop :=
  str (BestResults.normalize_distance (PStr (race_text row))) = keyword.

(** The search on patterns without a metacharacter and text without
    letters of two cases, where it is the substring test; it instantiates
    the search in the worked examples, whose patterns are digits. *)
Definition literal_search (pattern : pystr) : option (pystr -> bool) :=
  Some (contains pattern).


(** A row of a participants table. *)
Definition entry (first_name last_name year gender race : string)
  : gmap pystr pyval :=
  <[He.col_first := PStr (py first_name)]>
    (<[He.col_last := PStr (py last_name)]>
       (<[Participants.col_year := PStr (py year)]>
          (<[Participants.col_gender := PStr (py gender)]>
             (<[He.col_category := PStr (py race)]> ∅)))).

Definition roster_columns : list pystr :=
  [ He.col_first; He.col_last; Participants.col_year; Participants.col_gender;
    He.col_category ].

(** Four participants with well-formed years of birth. *)
Definition club : Participants.roster :=
  Participants.Roster roster_columns
    [ entry "Dana" "Levi" "1980" "female" "10000";
      entry "Omer" "Cohen" "15/03/90" "male" "10000";
      entry "Noa" "Peretz" "unknown" "female" "5000";
      entry "Gil" "Mizrahi" "1975" "male" "21097" ].

(** The same table with a date of birth that lacks its year. *)
Definition club_with_short_date : Participants.roster :=
  Participants.Roster roster_columns
    (Participants.entries club ++ [ entry "Tal" "Bar" "03/90" "male" "10000" ]).

(** The row as the filter holds it, once [normalize_year] has gone over
    the column of years. *)
Definition with_year (row : gmap pystr pyval) : gmap pystr pyval :=
  <[Participants.col_year := Participants.year_cell (born row)]> row.

(** The tests of the filter on the year of birth and on the gender, read
    on a row of the table as scraped; a test that is not asked for
    passes. *)
Definition min_test (min_year : option Z) (row : gmap pystr pyval) : bool :=
  match min_year with
  | Some m => Participants.ge_year m (Participants.year_cell (born row))
  | None => true
  end.

Definition max_test (max_year : option Z) (row : gmap pystr pyval) : bool :=
  match max_year with
  | Some m => Participants.le_year m (Participants.year_cell (born row))
  | None => true
  end.

Definition gender_test (gender : option pystr) (row : gmap pystr pyval) : bool :=
  match gender with
  | Some g =>
      bool_decide (Participants.cell_of Participants.col_gender row = PStr g)
  | None => true
  end.

(** The rows that pass the three tests, in the order of the table. *)
Definition eligible (min_year max_year : option Z) (gender : option pystr)
  (rows : list (gmap pystr pyval)) : list (gmap pystr pyval) :=
  List.filter (gender_test gender)
    (List.filter (max_test max_year) (List.filter (min_test min_year) rows)).

(** The names of the rows, or [KeyError] without the two name columns. *)
Definition names_of (columns : list pystr) (rows : list (gmap pystr pyval))
  : Participants.attempt (list (pyval * pyval)) :=
  if bool_decide (He.col_first ∈ columns) && bool_decide (He.col_last ∈ columns)
  then Participants.Returned (map name_of rows)
  else Participants.Failed (Participants.Escaped KeyError).

(** The rows the keyword keeps: the rows whose category text the pattern
    is found in or, when it is found in none of them and the keyword is
    one of the five categories, the rows whose category text normalizes
    to the keyword. *)
Definition keyword_rows (found : pystr -> bool) (keyword : pystr)
  (rows : list (gmap pystr pyval)) : list (gmap pystr pyval) :=
  if negb (existsb (fun row => found (race_text row)) rows)
     && in_list keyword Participants.canonical
  then List.filter
         (fun row => bool_decide
                       (str (BestResults.normalize_distance
                               (PStr (race_text row))) = keyword)) rows
  else List.filter (fun row => found (race_text row)) rows.

(** * Properties *)

(** ** Facts about text *)

Lemma contains_single c s : contains [c] s = true <-> c ∈ s.
Proof.
  induction s as [|x t IH]; simpl.
  - split; [discriminate | by intros ?%elem_of_nil].
  - rewrite orb_true_iff, andb_true_r, N.eqb_eq, IH, elem_of_cons. tauto.
Qed.

Lemma elem_of_lstrip c s : c ∈ s -> isspace c = false -> c ∈ lstrip s.
Proof.
  intros Hin Hc. induction s as [|x t IH]; simpl; [done|].
  destruct (isspace x) eqn:Hx; [|done].
  apply elem_of_cons in Hin as [-> | Hin]; [congruence | auto].
Qed.

Lemma elem_of_strip c s : c ∈ s -> isspace c = false -> c ∈ strip s.
Proof.
  intros Hin Hc. unfold strip, rstrip.
  rewrite list_elem_of_In, <- in_rev, <- list_elem_of_In.
  apply elem_of_lstrip; [|done].
  rewrite list_elem_of_In, <- in_rev, <- list_elem_of_In.
  by apply elem_of_lstrip.
Qed.

Lemma contains_single_strip c s :
  isspace c = false -> contains [c] s = true -> contains [c] (strip s) = true.
Proof.
  intros Hc Hs. apply contains_single, elem_of_strip; [|done].
  by apply contains_single.
Qed.

(** ** The category normalizer *)

(** The single-person script's 21K list holds no Hebrew rendering: there a
    half-marathon label reaches the end of the rules. *)
Lemma single_person_half_marathon :
  SinglePerson.normalize_distance (PStr (He.hatzi ++ [He.sp] ++ He.marathon)) = PNaN.
Proof. vm_compute. reflexivity. Qed.

(** C4: in the class every member of the 21K, the 10K and the 42K alias
    list normalizes to its category, and the meter counts, the canonical
    spellings and the Hebrew half-marathon renderings are members of its
    21K list. The copy of the normalizer in the single-person script has
    the same 10K and 42K lists, but of the 21K list only the meter counts
    and the canonical spellings, which it normalizes to 21K: the Hebrew
    half-marathon renderings and 21 with the kilometre abbreviation,
    members of the class's list, come out of it as unknown. *)
Theorem C4_single_person_misses_half_marathon :
  Forall (fun s => BestResults.normalize_distance (PStr s) = PStr (py "21K"))
         BestResults.aliases_21K
  /\ Forall (fun s => BestResults.normalize_distance (PStr s) = PStr (py "10K"))
            BestResults.aliases_10K
  /\ Forall (fun s => BestResults.normalize_distance (PStr s) = PStr (py "42K"))
            BestResults.aliases_42K
  /\ Forall (fun s => s ∈ BestResults.aliases_21K)
            [ py "21097"; py "21000"; py "21K"; py "21k";
              He.hatzi ++ [He.sp] ++ He.marathon;
              He.hatzi ++ [He.hyphen] ++ He.marathon;
              He.hatzi ++ [He.underscore] ++ He.marathon ]
  /\ SinglePerson.aliases_10K = BestResults.aliases_10K
  /\ SinglePerson.aliases_42K = BestResults.aliases_42K
  /\ Forall (fun s => SinglePerson.normalize_distance (PStr s) = PStr (py "10K"))
            BestResults.aliases_10K
  /\ Forall (fun s => SinglePerson.normalize_distance (PStr s) = PStr (py "42K"))
            BestResults.aliases_42K
  /\ Forall (fun s => SinglePerson.normalize_distance (PStr s) = PStr (py "21K"))
            [ py "21097"; py "21000"; py "21K"; py "21k" ]
  /\ (forall s,
        s ∈ BestResults.aliases_21K <->
        s ∈ [ py "21097"; py "21000"; py "21K"; py "21k" ]
        \/ s ∈ class_only_21K)
  /\ Forall (fun s => SinglePerson.normalize_distance (PStr s) = PNaN
                      /\ BestResults.normalize_distance (PStr s) = PStr (py "21K"))
            class_only_21K.
Proof.
  split; [|split; [|split; [|split; [|split; [|split; [|split;
    [|split; [|split; [|split]]]]]]]]].
  - repeat constructor; vm_compute; reflexivity.
  - repeat constructor; vm_compute; reflexivity.
  - repeat constructor; vm_compute; reflexivity.
  - repeat constructor; apply bool_decide_unpack; vm_compute; exact I.
  - reflexivity.
  - reflexivity.
  - repeat constructor; vm_compute; reflexivity.
  - repeat constructor; vm_compute; reflexivity.
  - repeat constructor; vm_compute; reflexivity.
  - intros s. unfold BestResults.aliases_21K, class_only_21K.
    rewrite !elem_of_cons, !elem_of_nil. tauto.
  - repeat constructor; vm_compute; reflexivity.
Qed.

(** The cases of [TestNormalizeDistance] in the repository's test file. *)
Lemma normalize_distance_tests :
  let f := BestResults.normalize_distance in
  f (PStr (py "10 " ++ He.km_quoted)) = PStr (py "10K")
  /\ f (PStr (py "10" ++ He.km_quoted)) = PStr (py "10K")
  /\ f (PStr (py "9800")) = PStr (py "10K")
  /\ f (PStr (py "10000")) = PStr (py "10K")
  /\ f (PStr (py "21097")) = PStr (py "21K")
  /\ f (PStr (py "21000")) = PStr (py "21K")
  /\ f (PStr (py "21K")) = PStr (py "21K")
  /\ f (PStr (py "15 " ++ He.km_quoted)) = PStr (py "15K")
  /\ f (PStr (py "5 " ++ He.km_quoted)) = PStr (py "5K")
  /\ isna (f (PStr [])) = true
  /\ isna (f PNone) = true
  /\ f (PStr (py "42195")) = PStr (py "42K")
  /\ f (PStr (py "42K")) = PStr (py "42K")
  /\ f (PStr (py "42k")) = PStr (py "42K")
  /\ isna (f (PStr (py "unknown distance"))) = true
  /\ f (PInt 10000) = PStr (py "10K")
  /\ f (PInt 21097) = PStr (py "21K").
Proof. repeat split; vm_compute; reflexivity. Qed.

Lemma normalize_distance_cases value :
  BestResults.normalize_distance value ∈ categories.
Proof.
  unfold BestResults.normalize_distance.
  repeat match goal with |- context [if ?b then _ else _] => destruct b end;
    in_categories.
Qed.

Lemma single_normalize_distance_cases value :
  SinglePerson.normalize_distance value ∈ categories.
Proof.
  unfold SinglePerson.normalize_distance.
  repeat match goal with |- context [if ?b then _ else _] => destruct b end;
    in_categories.
Qed.

(** C5: on every value the normalizer returns one of the five categories
    or [np.nan], the unknown outcome, and it returns [np.nan] on a null
    value and on text that is blank once trimmed. *)
Theorem C5_normalize_total (value : pyval) :
  BestResults.normalize_distance value ∈ categories
  /\ SinglePerson.normalize_distance value ∈ categories
  /\ (if isna value || bool_decide (strip (str value) = [])
      then BestResults.normalize_distance value = PNaN
           /\ SinglePerson.normalize_distance value = PNaN
      else True)
  /\ BestResults.normalize_distance PNone = PNaN
  /\ BestResults.normalize_distance (PStr []) = PNaN
  /\ BestResults.normalize_distance (PStr (py "   ")) = PNaN
  /\ BestResults.normalize_distance (PStr (py "unknown distance")) = PNaN.
Proof.
  split; [apply normalize_distance_cases|].
  split; [apply single_normalize_distance_cases|].
  split; [|by vm_compute].
  unfold BestResults.normalize_distance, SinglePerson.normalize_distance.
  by destruct (isna value || bool_decide (strip (str value) = [])).
Qed.

Lemma five_not_space : isspace 53 = false.
Proof. reflexivity. Qed.

Lemma two_not_space : isspace 50 = false.
Proof. reflexivity. Qed.

(** C6: text that contains "5" and "2" is never classified as 5K, and the
    25-kilometre label of the example comes out unknown. *)
Theorem C6_two_excludes_five (s : pystr) :
  contains (py "5") s = true ->
  contains (py "2") s = true ->
  BestResults.normalize_distance (PStr s) <> PStr (py "5K")
  /\ SinglePerson.normalize_distance (PStr s) <> PStr (py "5K").
Proof.
  intros _ H2.
  apply (contains_single_strip 50 s two_not_space) in H2.
  unfold BestResults.normalize_distance, SinglePerson.normalize_distance.
  cbn [str]. change (contains (py "2") (strip s)) with (contains [50] (strip s)).
  rewrite H2. cbn [negb]. rewrite andb_false_r.
  split;
    repeat match goal with |- context [if ?b then _ else _] => destruct b end;
    intros E; vm_compute in E; discriminate E.
Qed.

Lemma C6_two_excludes_five_witness :
  BestResults.normalize_distance (PStr label_25_km) <> PStr (py "5K")
  /\ SinglePerson.normalize_distance (PStr label_25_km) <> PStr (py "5K").
Proof. apply (C6_two_excludes_five label_25_km); vm_compute; reflexivity. Defined.

(** C10: "10K", the normalizer's own output, is no member of the 10K alias
    list and matches no later rule, while the other four outputs normalize
    to themselves; so normalizing "10000" twice differs from normalizing
    it once. *)
Theorem C10_not_idempotent :
  (py "10K" ∉ BestResults.aliases_10K)
  /\ BestResults.normalize_distance (PStr (py "10K")) = PNaN
  /\ BestResults.normalize_distance (PStr (py "21K")) = PStr (py "21K")
  /\ BestResults.normalize_distance (PStr (py "42K")) = PStr (py "42K")
  /\ BestResults.normalize_distance (PStr (py "15K")) = PStr (py "15K")
  /\ BestResults.normalize_distance (PStr (py "5K")) = PStr (py "5K")
  /\ BestResults.normalize_distance (PStr (py "10000")) = PStr (py "10K")
  /\ BestResults.normalize_distance
       (BestResults.normalize_distance (PStr (py "10000")))
     <> BestResults.normalize_distance (PStr (py "10000"))
  /\ (py "10K" ∉ SinglePerson.aliases_10K)
  /\ SinglePerson.normalize_distance (PStr (py "10K")) = PNaN
  /\ SinglePerson.normalize_distance (PStr (py "21K")) = PStr (py "21K")
  /\ SinglePerson.normalize_distance (PStr (py "42K")) = PStr (py "42K")
  /\ SinglePerson.normalize_distance (PStr (py "15K")) = PStr (py "15K")
  /\ SinglePerson.normalize_distance (PStr (py "5K")) = PStr (py "5K")
  /\ SinglePerson.normalize_distance
       (SinglePerson.normalize_distance (PStr (py "10000")))
     <> SinglePerson.normalize_distance (PStr (py "10000")).
Proof.
  repeat split; try (vm_compute; reflexivity);
    try (intros E; vm_compute in E; discriminate E);
    intros E; apply (bool_decide_pack _) in E; vm_compute in E; exact E.
Qed.

(** ** The time resolver *)

Lemma strip_trimmed s : trimmed s = true -> strip s = s.
Proof.
  destruct s as [|c t]; [done|].
  unfold trimmed. rewrite andb_true_iff, !negb_true_iff. intros [Hc Hl].
  unfold strip, rstrip. cbn [lstrip]. rewrite Hc.
  destruct (rev (c :: t)) as [|x r] eqn:Hr.
  - apply (f_equal (@rev N)) in Hr. rewrite rev_involutive in Hr. discriminate Hr.
  - apply (f_equal (@rev N)) in Hr. rewrite rev_involutive in Hr.
    cbn [rev] in Hr. rewrite Hr, last_last in Hl.
    cbn [lstrip]. rewrite Hl. cbn [rev]. by rewrite Hr.
Qed.

Lemma choose_best_time_string_tests :
  BestResults.choose_best_time_string (timed_row "00:40:00" "00:41:00") = py "00:40:00"
  /\ BestResults.choose_best_time_string (timed_row "00:00:00" "00:41:00") = py "00:41:00"
  /\ BestResults.choose_best_time_string (timed_row "00:00:00" "00:00:00") = []
  /\ BestResults.choose_best_time_string (timed_row "NaT" "None") = []
  /\ BestResults.choose_best_time_string (<[He.col_result := PStr (py "00:42:00")]> ∅)
     = py "00:42:00"
  /\ BestResults.choose_best_time_string ∅ = [].
Proof. repeat split; vm_compute; reflexivity. Qed.

(** The resolver of the class reads each field as text with the white
    space at both ends removed, an absent field as the empty text. It
    returns the personal-time text when that text is none of the
    sentinels, otherwise the result text under the same exclusion, and
    the empty text when both are excluded. On a cell that holds trimmed
    text, the text read is the cell itself. *)
Lemma choose_best_time_string_cases (row : gmap pystr pyval) :
  let text := BestResults.time_text row in
  let excluded col := in_list (text col) BestResults.null_times in
  BestResults.choose_best_time_string row =
    (if excluded He.col_personal
     then if excluded He.col_result then [] else text He.col_result
     else text He.col_personal)
  /\ (forall col, row !! col = None -> text col = [] /\ excluded col = true)
  /\ (forall col s, row !! col = Some (PStr s) -> text col = strip s)
  /\ (forall col s,
        row !! col = Some (PStr s) -> trimmed s = true -> text col = s).
Proof.
  cbv zeta. split; [|split; [|split]].
  - unfold BestResults.choose_best_time_string. cbn [BestResults.first_valid].
    destruct (in_list (BestResults.time_text row He.col_personal) _); [|done].
    by destruct (in_list (BestResults.time_text row He.col_result) _).
  - intros col Hcol. unfold BestResults.time_text. by rewrite Hcol.
  - intros col s Hcol. unfold BestResults.time_text. by rewrite Hcol.
  - intros col s Hcol Hs. unfold BestResults.time_text. rewrite Hcol.
    cbn [default str]. by apply strip_trimmed.
Qed.

Lemma sort_values_singleton (S : sorter) {A} (key : A -> timedelta) x :
  sort_values S key [x] = [x].
Proof. apply Permutation_singleton_r, sort_values_perm. Qed.

(** C2: the resolver of the class, [choose_best_time_string], does what
    the claim says on the cells of a scraped table, which hold trimmed
    text; [parse_time] of the single-person script does not. It tests the
    personal time against "00:00:00", "0", the empty text, None and nan,
    not against "NaT" and "None", and parses the result field as it is.
    For a row whose two times are "00:00:00" it gives the zero duration
    that text parses to, where the class's resolver gives the empty text,
    and with "NaT" or "None" as personal time it never reads the result.
    A page with a finished 10K and an unfinished one at "00:00:00" makes
    the unfinished row the best 10K result, at zero duration. *)
Theorem C2_parse_time_skips_exclusion :
  (forall row p r,
     row !! He.col_personal = Some (PStr p) ->
     row !! He.col_result = Some (PStr r) ->
     trimmed p = true -> trimmed r = true ->
     BestResults.choose_best_time_string row
     = if in_list p BestResults.null_times
       then if in_list r BestResults.null_times then [] else r
       else p)
  /\ (forall to_timedelta row p v,
        row !! He.col_personal = Some (PStr p) ->
        p ∈ [ py "00:00:00"; py "0"; [] ] ->
        row !! He.col_result = Some v ->
        SinglePerson.parse_time to_timedelta row = to_timedelta v)
  /\ (forall to_timedelta row p,
        row !! He.col_personal = Some (PStr p) ->
        p ∈ [ py "NaT"; py "None" ] ->
        SinglePerson.parse_time to_timedelta row = to_timedelta (PStr p))
  /\ BestResults.choose_best_time_string (timed_row "00:00:00" "00:00:00") = []
  /\ SinglePerson.parse_time clock (timed_row "00:00:00" "00:00:00") = Some 0%Z
  /\ BestResults.choose_best_time_string (timed_row "NaT" "1:00:00")
     = py "1:00:00"
  /\ SinglePerson.parse_time clock (timed_row "NaT" "1:00:00") = None
  /\ (forall S : sorter,
        exists best df,
          SinglePerson.fetch_and_process_results clock S unfinished_season
            = Ok (best, df)
          /\ map label best = [1%nat]
          /\ map race_time best = [Some 0%Z]).
Proof.
  split; [|split; [|split; [|split; [|split; [|split; [|split]]]]]].
  - intros row p r Hp Hr Htp Htr.
    destruct (choose_best_time_string_cases row) as (Hc & _ & _ & Ht).
    by rewrite Hc, (Ht _ _ Hp Htp), (Ht _ _ Hr Htr).
  - intros to_timedelta row p v Hp Hin Hv. unfold SinglePerson.parse_time.
    rewrite Hp, Hv. rewrite bool_decide_eq_true_2; [done|].
    unfold SinglePerson.null_times.
    rewrite !elem_of_cons in Hin. rewrite !elem_of_cons.
    destruct Hin as [-> | [-> | [-> | []%elem_of_nil]]]; auto.
  - intros to_timedelta row p Hp Hin. unfold SinglePerson.parse_time.
    rewrite Hp. rewrite bool_decide_eq_false_2; [done|].
    rewrite !elem_of_cons in Hin.
    destruct Hin as [-> | [-> | []%elem_of_nil]];
      intros E; apply (bool_decide_pack _) in E; vm_compute in E; exact E.
  - vm_compute. reflexivity.
  - vm_compute. reflexivity.
  - vm_compute. reflexivity.
  - vm_compute. reflexivity.
  - intros S.
    assert (Hdf : exists df best0,
              SinglePerson.data_frame clock 0
                [ result_row "10000" "0:50:00" "0:50:10";
                  result_row "10000" "00:00:00" "00:00:00" ] = Ok df
              /\ SinglePerson.best_rows df = Ok [best0]
              /\ label best0 = 1%nat /\ race_time best0 = Some 0%Z).
    { eexists _, _. split; [vm_compute; reflexivity|].
      split; [vm_compute; reflexivity|]. split; reflexivity. }
    destruct Hdf as (df & best0 & Hdf & Hbest & Hl & Ht).
    exists [best0], df. unfold SinglePerson.fetch_and_process_results,
      unfinished_season. rewrite Hdf. cbn [mbind result_bind].
    rewrite Hbest. cbn [mbind result_bind]. unfold SinglePerson.ordered.
    rewrite sort_values_singleton. cbn [map]. by rewrite Hl, Ht.
Qed.

Lemma C2_parse_time_skips_exclusion_witness :
  BestResults.choose_best_time_string (timed_row "0" "00:00:00") = []
  /\ SinglePerson.parse_time clock (timed_row "0" "00:00:00") = Some 0%Z
  /\ SinglePerson.parse_time clock (timed_row "None" "1:00:00") = None.
Proof.
  destruct C2_parse_time_skips_exclusion as (Hclass & Hnull & Htext & _).
  split; [|split].
  - rewrite (Hclass _ (py "0") (py "00:00:00")); reflexivity.
  - rewrite (Hnull clock _ (py "0") (PStr (py "00:00:00")));
      [reflexivity|reflexivity| |reflexivity].
    apply list_elem_of_lookup. by exists 1%nat.
  - rewrite (Htext clock _ (py "None")); [reflexivity|reflexivity|].
    apply list_elem_of_lookup. by exists 1%nat.
Defined.

(** ** Birth years *)

Lemma normalize_year_shapes :
  (forall z, BestResults.normalize_year (PInt z) = Ok (Some z))
  /\ BestResults.normalize_year (PStr (py "1990")) = Ok (Some 1990%Z)
  /\ BestResults.normalize_year (PStr (py "15/03/90")) = Ok (Some 1990%Z)
  /\ BestResults.normalize_year (PStr (py "15/03/20")) = Ok (Some 2020%Z)
  /\ BestResults.normalize_year (PStr (py "15/03/26")) = Ok (Some 1926%Z)
  /\ BestResults.normalize_year (PStr (py "15/03/25")) = Ok (Some 2025%Z)
  /\ BestResults.normalize_year (PStr (py "15/03/1984")) = Ok (Some 1984%Z)
  /\ BestResults.normalize_year (PStr (py "unknown")) = Ok None
  /\ BestResults.normalize_year PNone = Ok None
  /\ BestResults.normalize_year PNaN = Ok None.
Proof. repeat split; vm_compute; reflexivity. Qed.

(** [int()] on text: white space at both ends, a sign, underscores
    between digits and decimal digits of other scripts are read; the
    separator U+001F is no white space to it, and white space inside the
    literal, a doubled or a trailing underscore are refused. *)
Lemma py_int_examples :
  py_int (py " 90 ") = Some 90%Z
  /\ py_int ([0xA0] ++ py "90" ++ [0x2003]) = Some 90%Z
  /\ py_int (py "90" ++ [0x1F]) = None
  /\ py_int ([0x1C] ++ py "90") = None
  /\ py_int [0x669; 0x660] = Some 90%Z
  /\ py_int [0xFF19; 0x660] = Some 90%Z
  /\ py_int (py "+5") = Some 5%Z
  /\ py_int (py "-5") = Some (-5)%Z
  /\ py_int (py "+ 5") = None
  /\ py_int (py "1_0") = Some 10%Z
  /\ py_int (py "1__0") = None
  /\ py_int (py "_1") = None
  /\ py_int (py "1_") = None
  /\ py_int (py "007") = Some 7%Z
  /\ py_int (py "0x10") = None
  /\ py_int (py "1 2") = None
  /\ py_int [] = None
  /\ py_int (py "+") = None.
Proof. repeat split; vm_compute; reflexivity. Qed.

(** C9: the slash branch of [normalize_year] reads the third component
    and converts it outside the [try] that guards the plain-text branch:
    a date with fewer than three components raises [IndexError] and one
    whose third component is no number raises [ValueError], where plain
    text that is no number gives [None]. *)
Theorem C9_normalize_year_slash_raises :
  BestResults.normalize_year (PStr (py "03/90")) = Raise IndexError
  /\ BestResults.normalize_year (PStr (py "15/03/abc")) = Raise ValueError
  /\ BestResults.normalize_year (PStr (py "abc")) = Ok None.
Proof. repeat split; vm_compute; reflexivity. Qed.

(** ** Selection of the smallest duration *)

Lemma better_spec acc r j u :
  better acc r = Some (j, u) ->
  (acc = Some (j, u) \/ (label r = j /\ race_time r = Some u))
  /\ (forall j' u', acc = Some (j', u') -> (u <= u')%Z)
  /\ (forall u', race_time r = Some u' -> (u <= u')%Z).
Proof.
  unfold better.
  destruct (race_time r) as [tr|], acc as [[j0 u0]|]; try discriminate.
  - destruct (Z.ltb_spec tr u0); intros [= <- <-].
    + split; [by right|]. split; [intros ? ? [= _ <-]|intros ? [= <-]]; lia.
    + split; [by left|]. split; [intros ? ? [= _ <-]|intros ? [= <-]]; lia.
  - intros [= <- <-]. split; [by right|].
    split; [discriminate|intros ? [= <-]; lia].
  - intros [= <- <-]. split; [by left|].
    split; [intros ? ? [= _ <-]; lia|discriminate].
Qed.

Lemma better_none acc r :
  better acc r = None -> acc = None /\ race_time r = None.
Proof.
  unfold better. destruct (race_time r), acc as [[? ?]|]; try done.
  by destruct (_ <? _)%Z.
Qed.

Lemma foldl_better_spec rows : forall acc i t,
  foldl better acc rows = Some (i, t) ->
  (acc = Some (i, t) \/ exists r, r ∈ rows /\ label r = i /\ race_time r = Some t)
  /\ (forall j u, acc = Some (j, u) -> (t <= u)%Z)
  /\ (forall r u, r ∈ rows -> race_time r = Some u -> (t <= u)%Z).
Proof.
  induction rows as [|r rows IH]; intros acc i t Hf; cbn [foldl] in Hf.
  - subst acc. split; [by left|]. split.
    + intros j u [= _ ->]. lia.
    + by intros r u ?%elem_of_nil.
  - apply IH in Hf as (Hsrc & Hacc & Hrows).
    split; [|split].
    + destruct Hsrc as [Hb | (r' & Hin & Hl & Ht)].
      * apply better_spec in Hb as ([Ha | [Hl Ht]] & _); [by left|].
        right. exists r. by rewrite elem_of_cons; auto.
      * right. exists r'. by rewrite elem_of_cons; auto.
    + intros j u Ha.
      destruct (better acc r) as [[j1 u1]|] eqn:Hb.
      * pose proof (Hacc _ _ eq_refl).
        apply better_spec in Hb as (_ & Hle & _). specialize (Hle _ _ Ha). lia.
      * apply better_none in Hb as [Hb _]. congruence.
    + intros r' u [-> | Hin]%elem_of_cons Hu; [|eauto].
      destruct (better acc r) as [[j1 u1]|] eqn:Hb.
      * pose proof (Hacc _ _ eq_refl).
        apply better_spec in Hb as (_ & _ & Hle). specialize (Hle _ Hu). lia.
      * apply better_none in Hb as [_ Hb]. congruence.
Qed.

Lemma foldl_better_some rows : forall acc,
  (is_Some acc \/ exists r, r ∈ rows /\ is_Some (race_time r)) ->
  is_Some (foldl better acc rows).
Proof.
  induction rows as [|r rows IH]; intros acc H; cbn [foldl].
  - destruct H as [H | (r & []%elem_of_nil & _)]. done.
  - apply IH. destruct H as [[p ->] | (r' & [-> | Hin]%elem_of_cons & Hr')].
    + left. unfold better. destruct (race_time r), p; [|done].
      by destruct (_ <? _)%Z.
    + left. destruct Hr' as [t Ht]. unfold better. rewrite Ht.
      destruct acc as [[? ?]|]; [|done]. by destruct (_ <? _)%Z.
    + right. eauto.
Qed.

Lemma foldl_better_none rows :
  Forall (fun r => race_time r = None) rows -> foldl better None rows = None.
Proof.
  induction 1 as [|r rows Hr _ IH]; [done|].
  cbn [foldl]. unfold better at 2. by rewrite Hr.
Qed.

(** The row [idxmin] points at holds a duration, and no row of the
    selection holds a smaller one. *)
Lemma idxmin_spec rows i :
  idxmin rows = Ok i ->
  exists r t, r ∈ rows /\ label r = i /\ race_time r = Some t
    /\ forall r' u, r' ∈ rows -> race_time r' = Some u -> (t <= u)%Z.
Proof.
  unfold idxmin. destruct (foldl better None rows) as [[j t]|] eqn:Hf; [|done].
  intros [= ->]. apply foldl_better_spec in Hf as ([? | (r & ? & ? & ?)] & _ & Hmin);
    [done|]. eauto 10.
Qed.

(** [idxmin] returns as soon as one row holds a duration, and raises when
    none does. *)
Lemma idxmin_some rows r :
  r ∈ rows -> is_Some (race_time r) -> exists i, idxmin rows = Ok i.
Proof.
  intros Hin Hr. unfold idxmin.
  destruct (foldl_better_some rows None) as [[i t] ->]; eauto.
Qed.

Lemma idxmin_all_nat rows :
  Forall (fun r => race_time r = None) rows -> idxmin rows = Raise ValueError.
Proof. intros H. unfold idxmin. by rewrite foldl_better_none. Qed.

Lemma loc_spec df i r : loc df i = Ok r -> r ∈ df /\ label r = i.
Proof.
  unfold loc. destruct (List.find _ df) as [r'|] eqn:Hf; [|done].
  intros [= ->]. apply find_some in Hf as [Hin Hl].
  split; [by apply list_elem_of_In | by apply Nat.eqb_eq].
Qed.

Lemma loc_unique df r :
  NoDup (map label df) -> r ∈ df -> loc df (label r) = Ok r.
Proof.
  intros Hnd Hin. unfold loc.
  induction df as [|x df IH]; [by apply elem_of_nil in Hin|].
  cbn [List.find]. destruct (Nat.eqb_spec (label x) (label r)) as [Heq | Hne].
  - apply elem_of_cons in Hin as [-> | Hin]; [done|].
    cbn [map] in Hnd. apply NoDup_cons in Hnd as [Hx _].
    exfalso. apply Hx. rewrite Heq. apply list_elem_of_In, in_map.
    by apply list_elem_of_In.
  - apply elem_of_cons in Hin as [-> | Hin]; [done|].
    apply IH; [|done]. cbn [map] in Hnd. by apply NoDup_cons in Hnd as [_ ?].
Qed.

Lemma mapM_spec {A B} (f : A -> result B) l out :
  mapM f l = Ok out -> Forall2 (fun a b => f a = Ok b) l out.
Proof.
  revert out. induction l as [|a l IH]; intros out; cbn [mapM].
  - intros [= <-]. constructor.
  - destruct (f a) as [b|] eqn:Hfa; [|done]. cbn.
    destruct (mapM f l) as [bs|]; [|done]. cbn. intros [= <-].
    constructor; auto.
Qed.

Lemma mapM_ok {A B} (f : A -> result B) l :
  Forall (fun a => exists b, f a = Ok b) l -> exists out, mapM f l = Ok out.
Proof.
  induction 1 as [|a l [b Hb] _ [bs Hbs]]; cbn [mapM]; [eauto|].
  rewrite Hb. cbn. rewrite Hbs. cbn. eauto.
Qed.

Lemma mapM_spec_in {A B} (f : A -> result B) (l0 l : list A) out :
  (forall a, a ∈ l -> a ∈ l0) ->
  mapM f l = Ok out -> Forall2 (fun a b => a ∈ l0 /\ f a = Ok b) l out.
Proof.
  intros Hsub Hm. apply mapM_spec in Hm.
  induction Hm as [|a b l out Hab _ IH]; constructor.
  - split; [|done]. apply Hsub. by left.
  - apply IH. intros a' Ha'. apply Hsub. by right.
Qed.

Lemma NoDup_label_filter (p : frame_row -> bool) df :
  NoDup (map label df) -> NoDup (map label (List.filter p df)).
Proof.
  induction df as [|r df IH]; cbn [List.filter map]; [done|].
  intros [Hr Hnd]%NoDup_cons. destruct (p r); cbn [map]; [|auto].
  apply NoDup_cons. split; [|auto].
  intros Hin. apply Hr.
  apply list_elem_of_In, in_map_iff in Hin as (x & Hx & Hin%filter_In).
  apply list_elem_of_In, in_map_iff. exists x. tauto.
Qed.

Lemma elem_of_filter_bool {A} (p : A -> bool) (l : list A) x :
  x ∈ List.filter p l <-> x ∈ l /\ p x = true.
Proof. by rewrite !list_elem_of_In, filter_In. Qed.

(** ** Group keys *)

Lemma str_ltb_irrefl a : SinglePerson.str_ltb a a = false.
Proof.
  induction a as [|x a IH]; [done|]. cbn.
  rewrite IH, andb_false_r, orb_false_r. apply N.ltb_irrefl.
Qed.

Lemma str_lt_trans a b c : str_lt a b -> str_lt b c -> str_lt a c.
Proof.
  unfold str_lt. revert b c.
  induction a as [|x a IH]; intros [|y b] [|z c]; cbn; try done.
  rewrite !orb_true_iff, !andb_true_iff, !N.ltb_lt, !N.eqb_eq.
  intros [Hxy | [-> Hab]] [Hyz | [-> Hbc]]; try (left; lia); try (by left).
  right. split; [done|]. by apply (IH b).
Qed.

Lemma str_ltb_trichotomy a b :
  SinglePerson.str_ltb a b = false -> SinglePerson.str_ltb b a = false -> a = b.
Proof.
  revert b. induction a as [|x a IH]; intros [|y b]; cbn; try done.
  rewrite !orb_false_iff, !andb_false_iff, !N.ltb_ge, !N.eqb_neq.
  intros [Hyx Hab] [Hxy Hba].
  assert (x = y) as -> by lia.
  f_equal. apply IH; [destruct Hab | destruct Hba]; done.
Qed.

Lemma elem_of_insert_key x k keys :
  x ∈ SinglePerson.insert_key k keys <-> x = k \/ x ∈ keys.
Proof.
  induction keys as [|k' keys IH]; cbn.
  - rewrite list_elem_of_singleton. split; [auto|]. by intros [?|?%elem_of_nil].
  - destruct (SinglePerson.str_ltb k k') eqn:H1.
    + by rewrite elem_of_cons.
    + destruct (SinglePerson.str_ltb k' k) eqn:H2.
      * rewrite !elem_of_cons, IH. tauto.
      * rewrite (str_ltb_trichotomy _ _ H1 H2), elem_of_cons. tauto.
Qed.

Lemma insert_key_sorted k keys :
  StronglySorted str_lt keys ->
  StronglySorted str_lt (SinglePerson.insert_key k keys).
Proof.
  induction 1 as [|k' keys Hs IH Hall]; cbn.
  - repeat constructor.
  - destruct (SinglePerson.str_ltb k k') eqn:H1.
    + constructor; [by constructor|]. constructor; [done|].
      eapply Forall_impl; [exact Hall|]. intros y Hy. by apply (str_lt_trans _ k').
    + destruct (SinglePerson.str_ltb k' k) eqn:H2; [|by constructor].
      constructor; [done|]. apply Forall_forall. intros y Hy.
      apply elem_of_insert_key in Hy as [-> | Hy]; [done|].
      rewrite Forall_forall in Hall. auto.
Qed.

Lemma sorted_keys_NoDup keys : StronglySorted str_lt keys -> NoDup keys.
Proof.
  induction 1 as [|k keys _ IH Hall]; [constructor|].
  apply NoDup_cons. split; [|done]. intros Hin.
  rewrite Forall_forall in Hall. specialize (Hall _ Hin).
  unfold str_lt in Hall. by rewrite str_ltb_irrefl in Hall.
Qed.

Lemma group_keys_sorted df : StronglySorted str_lt (SinglePerson.group_keys df).
Proof.
  unfold SinglePerson.group_keys.
  induction (omap SinglePerson.group_key df) as [|k l IH]; cbn [foldr].
  - constructor.
  - by apply insert_key_sorted.
Qed.

Lemma elem_of_group_keys k df :
  k ∈ SinglePerson.group_keys df <->
  exists r, r ∈ df /\ normalized_distance_of r = PStr k.
Proof.
  unfold SinglePerson.group_keys.
  transitivity (k ∈ omap SinglePerson.group_key df).
  - induction (omap SinglePerson.group_key df) as [|k' l IH]; cbn [foldr]; [done|].
    rewrite elem_of_insert_key, elem_of_cons, IH. tauto.
  - rewrite list_elem_of_omap. unfold SinglePerson.group_key.
    split; intros (r & Hin & Hr); exists r; split; try done.
    + by destruct (normalized_distance_of r); simplify_eq.
    + by rewrite Hr.
Qed.

(** ** Best results *)

Lemma note_category r :
  normalized_distance_of (note r) = normalized_distance_of r.
Proof.
  unfold normalized_distance_of, note, set_cell. cbn [cell].
  by rewrite lookup_insert_ne.
Qed.

Lemma note_marked r : marked (note r).
Proof. unfold marked, note, set_cell. cbn [cell]. by rewrite lookup_insert_eq. Qed.

Lemma named_category first_name last_name r :
  normalized_distance_of
    (note (set_cell He.col_last (PStr last_name)
            (set_cell He.col_first (PStr first_name) r)))
  = normalized_distance_of r.
Proof.
  rewrite note_category. unfold normalized_distance_of, set_cell. cbn [cell].
  by rewrite !lookup_insert_ne.
Qed.

Lemma in_category_true category r :
  BestResults.in_category category r = true <->
  normalized_distance_of r = PStr category.
Proof. unfold BestResults.in_category. apply bool_decide_eq_true. Qed.

(** What [best_in_category] returns, when it returns a row: a row of the
    frame in the category, fastest there, with the names and the note
    written in. *)
Lemma best_in_category_spec first_name last_name category df b :
  NoDup (map label df) ->
  BestResults.best_in_category first_name last_name category df = Ok (Some b) ->
  exists r, r ∈ df
    /\ b = note (set_cell He.col_last (PStr last_name)
                  (set_cell He.col_first (PStr first_name) r))
    /\ normalized_distance_of r = PStr category
    /\ fastest_in df r.
Proof.
  intros Hnd. unfold BestResults.best_in_category.
  set (df_cat := List.filter (BestResults.in_category category) df).
  assert (Hcat : forall r, r ∈ df_cat <->
            r ∈ df /\ normalized_distance_of r = PStr category).
  { intros r. unfold df_cat.
    by rewrite elem_of_filter_bool, in_category_true. }
  assert (Hnd' : NoDup (map label df_cat)) by by apply NoDup_label_filter.
  destruct df_cat as [|x df_cat'] eqn:Hdf; [done|]. rewrite <- Hdf in *.
  destruct (idxmin df_cat) as [i|] eqn:Hi; [|done]. cbn.
  destruct (loc df_cat i) as [r'|] eqn:Hl; [|done]. cbn. intros [= <-].
  apply idxmin_spec in Hi as (r & t & Hin & Hlab & Ht & Hmin).
  rewrite <- Hlab, (loc_unique df_cat r Hnd' Hin) in Hl. injection Hl as <-.
  apply Hcat in Hin as [Hin Hr]. exists r. repeat split; try done.
  exists t. split; [done|]. intros r' u Hin' Hr' Hu.
  apply (Hmin r' u); [|done]. apply Hcat. split; [done | congruence].
Qed.

(** What [best_rows] returns, when it returns: for each group key in
    turn, a row of the frame in that category, fastest there, with the
    note written in. *)
Lemma best_rows_spec df best :
  NoDup (map label df) ->
  SinglePerson.best_rows df = Ok best ->
  exists rows, best = map note rows
    /\ Forall2 (selected df)
         (SinglePerson.group_keys (List.filter SinglePerson.for_best df)) rows.
Proof.
  intros Hnd. unfold SinglePerson.best_rows.
  set (dfb := List.filter SinglePerson.for_best df).
  destruct (mapM _ (SinglePerson.group_keys dfb)) as [idxs|] eqn:Hidx; [|done].
  cbn. destruct (mapM (loc df) idxs) as [rows|] eqn:Hrows; [|done].
  cbn. intros [= <-]. exists rows. split; [done|].
  apply (mapM_spec_in _ (SinglePerson.group_keys dfb)) in Hidx; [|done].
  apply mapM_spec in Hrows.
  revert rows Hrows. induction Hidx as [|k i keys idxs [Hk Hi] _ IH];
    intros rows Hrows; inversion Hrows as [|? r ? rows' Hl Hrest]; subst;
    constructor; [|by apply IH].
  apply idxmin_spec in Hi as (r0 & t & Hin0 & Hlab & Ht & Hmin).
  apply elem_of_filter_bool in Hin0 as [Hin0 Hk0].
  apply bool_decide_eq_true in Hk0.
  apply elem_of_filter_bool in Hin0 as [Hin0 Hfb].
  rewrite <- Hlab, (loc_unique df r0 Hnd Hin0) in Hl. injection Hl as <-.
  split; [done|]. split; [done|]. exists t. split; [done|].
  intros r' u Hin' Hr' Hu. apply (Hmin r' u); [|done].
  apply elem_of_filter_bool. split.
  - apply elem_of_filter_bool. split; [done|].
    unfold SinglePerson.for_best in *. by rewrite Hr'.
  - apply bool_decide_eq_true. congruence.
Qed.

(** [best_rows] returns whenever every category it keeps has a row with
    a duration. *)
Lemma best_rows_returns df :
  NoDup (map label df) ->
  (forall r, r ∈ df -> SinglePerson.for_best r = true ->
     exists r', r' ∈ df
       /\ normalized_distance_of r' = normalized_distance_of r
       /\ is_Some (race_time r')) ->
  exists best, SinglePerson.best_rows df = Ok best.
Proof.
  intros Hnd Hall. unfold SinglePerson.best_rows.
  set (dfb := List.filter SinglePerson.for_best df).
  destruct (mapM_ok (fun k => idxmin (SinglePerson.group k dfb))
              (SinglePerson.group_keys dfb)) as [idxs Hidx].
  { apply Forall_forall. intros k (r & Hin & Hr)%elem_of_group_keys.
    apply elem_of_filter_bool in Hin as [Hin Hfb].
    destruct (Hall r Hin Hfb) as (r' & Hin' & Hr' & Hsome).
    apply (idxmin_some _ r'); [|done].
    apply elem_of_filter_bool. split.
    - apply elem_of_filter_bool. split; [done|].
      unfold SinglePerson.for_best in *. by rewrite Hr'.
    - apply bool_decide_eq_true. congruence. }
  rewrite Hidx. cbn.
  destruct (mapM_ok (loc df) idxs) as [rows Hrows].
  { apply mapM_spec in Hidx.
    induction Hidx as [|k i keys idxs Hi _ IH]; constructor; [|done].
    apply idxmin_spec in Hi as (r0 & t & Hin0 & Hlab & _).
    apply elem_of_filter_bool in Hin0 as [Hin0 _].
    apply elem_of_filter_bool in Hin0 as [Hin0 _].
    exists r0. rewrite <- Hlab. by apply loc_unique. }
  rewrite Hrows. cbn. eauto.
Qed.

Lemma fastest_in_note df r : fastest_in df r -> fastest_in df (note r).
Proof.
  intros (t & Ht & Hmin). exists t. split; [done|].
  intros r' u Hin Hr'. rewrite note_category in Hr'. eauto.
Qed.

Lemma fastest_in_named df first_name last_name r :
  fastest_in df r ->
  fastest_in df (note (set_cell He.col_last (PStr last_name)
                        (set_cell He.col_first (PStr first_name) r))).
Proof.
  intros (t & Ht & Hmin). exists t. split; [done|].
  intros r' u Hin Hr'. rewrite named_category in Hr'. eauto.
Qed.

(** [best_in_category] returns a row whenever the category has a row with
    a duration. *)
Lemma best_in_category_returns first_name last_name category df r :
  NoDup (map label df) ->
  r ∈ df -> normalized_distance_of r = PStr category -> is_Some (race_time r) ->
  exists b,
    BestResults.best_in_category first_name last_name category df = Ok (Some b).
Proof.
  intros Hnd Hin Hr Hsome. unfold BestResults.best_in_category.
  set (df_cat := List.filter (BestResults.in_category category) df).
  assert (Hin' : r ∈ df_cat).
  { apply elem_of_filter_bool. by rewrite in_category_true. }
  assert (Hnd' : NoDup (map label df_cat)) by by apply NoDup_label_filter.
  destruct df_cat as [|x df_cat'] eqn:Hdf; [by apply elem_of_nil in Hin'|].
  rewrite <- Hdf in *.
  destruct (idxmin_some df_cat r Hin' Hsome) as [i Hi]. rewrite Hi. cbn.
  apply idxmin_spec in Hi as (r0 & t & Hin0 & Hlab & _).
  rewrite <- Hlab, (loc_unique df_cat r0 Hnd' Hin0). cbn. eauto.
Qed.

Lemma class_data_frame_labels to_timedelta rows : forall i df,
  BestResults.data_frame to_timedelta i rows = Ok df ->
  map label df = seq i (length rows).
Proof.
  induction rows as [|row rows IH]; intros i df; cbn.
  - by intros [= <-].
  - unfold BestResults.derive. destruct (row !! He.col_category); [|done]. cbn.
    destruct (BestResults.data_frame to_timedelta (Datatypes.S i) rows)
      as [rs|] eqn:Hrs; [|done].
    cbn. intros [= <-]. cbn. f_equal. by apply IH.
Qed.

Lemma single_data_frame_labels to_timedelta rows : forall i df,
  SinglePerson.data_frame to_timedelta i rows = Ok df ->
  map label df = seq i (length rows).
Proof.
  induction rows as [|row rows IH]; intros i df; cbn.
  - by intros [= <-].
  - unfold SinglePerson.derive. destruct (row !! He.col_category); [|done]. cbn.
    destruct (SinglePerson.data_frame to_timedelta (Datatypes.S i) rows)
      as [rs|] eqn:Hrs; [|done].
    cbn. intros [= <-]. cbn. f_equal. by apply IH.
Qed.

(** The two entry points, taken apart. *)
Lemma fetch_and_process_results_inv to_timedelta S page best df :
  SinglePerson.fetch_and_process_results to_timedelta S page = Ok (best, df) ->
  exists rows best0,
    page = Table rows
    /\ SinglePerson.data_frame to_timedelta 0 rows = Ok df
    /\ SinglePerson.best_rows df = Ok best0
    /\ best = SinglePerson.ordered S best0.
Proof.
  unfold SinglePerson.fetch_and_process_results.
  destruct page as [| | |rows]; try done. destruct rows as [|row rows]; [done|].
  destruct (SinglePerson.data_frame to_timedelta 0 (row :: rows)) as [df'|] eqn:Hdf;
    [|done].
  cbn [mbind result_bind].
  destruct (SinglePerson.best_rows df') as [best0|] eqn:Hbest; [|done].
  cbn [mbind result_bind]. intros [= <- <-]. eauto 10.
Qed.

Lemma fetch_best_result_inv to_timedelta fetch first_name last_name category b :
  BestResults.fetch_best_result to_timedelta fetch first_name last_name category
    = Ok (Some b) ->
  exists rows df,
    fetch first_name last_name = Table rows
    /\ BestResults.data_frame to_timedelta 0 rows = Ok df
    /\ BestResults.best_in_category first_name last_name category df
       = Ok (Some b).
Proof.
  unfold BestResults.fetch_best_result.
  destruct (fetch first_name last_name) as [| | |rows]; try done.
  destruct rows as [|row rows]; [done|].
  destruct (BestResults.data_frame to_timedelta 0 (row :: rows)) as [df|] eqn:Hdf;
    [|done].
  cbn [mbind result_bind]. eauto 10.
Qed.

Lemma best_rows_properties df best :
  NoDup (map label df) ->
  SinglePerson.best_rows df = Ok best ->
  NoDup (map normalized_distance_of best)
  /\ Forall marked best
  /\ Forall (fastest_in df) best.
Proof.
  intros Hnd Hbest.
  apply best_rows_spec in Hbest as (rows & -> & Hsel); [|done].
  split; [|split].
  - assert (Hkeys : map normalized_distance_of (map note rows)
              = map PStr (SinglePerson.group_keys
                            (List.filter SinglePerson.for_best df))).
    { induction Hsel as [|k r keys rows (_ & Hr & _) _ IH]; [done|].
      cbn [map]. by rewrite note_category, Hr, IH. }
    rewrite Hkeys. apply NoDup_fmap_2; [by intros ? ? [= ->]|].
    apply sorted_keys_NoDup, group_keys_sorted.
  - apply Forall_forall. intros b (r & -> & _)%list_elem_of_fmap.
    apply note_marked.
  - induction Hsel as [|k r keys rows (_ & _ & Hr) _ IH]; constructor; [|done].
    by apply fastest_in_note.
Qed.

Lemma best_in_category_properties first_name last_name category df b :
  NoDup (map label df) ->
  BestResults.best_in_category first_name last_name category df = Ok (Some b) ->
  marked b /\ normalized_distance_of b = PStr category /\ fastest_in df b.
Proof.
  intros Hnd Hb.
  apply best_in_category_spec in Hb as (r & Hin & -> & Hr & Hfast); [|done].
  split; [apply note_marked|]. split.
  - by rewrite named_category.
  - by apply fastest_in_named.
Qed.

(** C1: on a frame with distinct labels, the rows [best_rows] returns
    have pairwise different categories, each carries the note "Best
    Result", and each holds a duration that no row of the frame in its
    category undercuts; the row [best_in_category] returns is in the
    category asked for, carries the note and is fastest in the same sense.
    Both return as soon as every category they select from has a row with
    a duration. The same holds of what [fetch_and_process_results] and
    [fetch_best_result] return for a page, whatever the duration parser,
    the lookup and the sort. On three 21K rows with 1:45:00, 1:50:00 and
    1:40:00 each selection returns the one row with 1:40:00. *)
Theorem C1_best_per_category :
  (forall df best,
     NoDup (map label df) ->
     SinglePerson.best_rows df = Ok best ->
     NoDup (map normalized_distance_of best)
     /\ Forall marked best
     /\ Forall (fastest_in df) best)
  /\ (forall first_name last_name category df b,
        NoDup (map label df) ->
        BestResults.best_in_category first_name last_name category df
          = Ok (Some b) ->
        marked b
        /\ normalized_distance_of b = PStr category
        /\ fastest_in df b)
  /\ (forall df,
        NoDup (map label df) ->
        (forall r, r ∈ df -> SinglePerson.for_best r = true ->
           exists r', r' ∈ df
             /\ normalized_distance_of r' = normalized_distance_of r
             /\ is_Some (race_time r')) ->
        exists best, SinglePerson.best_rows df = Ok best)
  /\ (forall first_name last_name category df r,
        NoDup (map label df) ->
        r ∈ df -> normalized_distance_of r = PStr category ->
        is_Some (race_time r) ->
        exists b,
          BestResults.best_in_category first_name last_name category df
            = Ok (Some b))
  /\ (forall to_timedelta S page best df,
        SinglePerson.fetch_and_process_results to_timedelta S page
          = Ok (best, df) ->
        NoDup (map normalized_distance_of best)
        /\ Forall marked best
        /\ Forall (fastest_in df) best)
  /\ (forall to_timedelta fetch first_name last_name category b,
        BestResults.fetch_best_result to_timedelta fetch first_name last_name
          category = Ok (Some b) ->
        marked b
        /\ normalized_distance_of b = PStr category
        /\ exists rows df,
             fetch first_name last_name = Table rows
             /\ BestResults.data_frame to_timedelta 0 rows = Ok df
             /\ fastest_in df b)
  /\ SinglePerson.best_rows three_half_marathons = Ok [note (run 2 "21K" 6000)]
  /\ (forall first_name last_name,
        BestResults.best_in_category first_name last_name (py "21K")
          three_half_marathons
        = Ok (Some (note (set_cell He.col_last (PStr last_name)
                           (set_cell He.col_first (PStr first_name)
                              (run 2 "21K" 6000)))))).
Proof.
  split; [|split; [|split; [|split; [|split; [|split; [|split]]]]]].
  - apply best_rows_properties.
  - apply best_in_category_properties.
  - apply best_rows_returns.
  - apply best_in_category_returns.
  - intros to_timedelta S page best df Hrun.
    apply fetch_and_process_results_inv in Hrun as (rows & best0 & _ & Hdf & Hb & ->).
    apply best_rows_properties in Hb as (Hnd & Hmarked & Hfast).
    + unfold SinglePerson.ordered.
      split; [|split]; by rewrite sort_values_perm.
    + rewrite (single_data_frame_labels _ _ _ _ Hdf). apply NoDup_seq.
  - intros to_timedelta fetch first_name last_name category b Hrun.
    apply fetch_best_result_inv in Hrun as (rows & df & Hf & Hdf & Hb).
    apply best_in_category_properties in Hb as (Hmarked & Hcat & Hfast).
    + eauto 10.
    + rewrite (class_data_frame_labels _ _ _ _ Hdf). apply NoDup_seq.
  - vm_compute. reflexivity.
  - intros first_name last_name. reflexivity.
Qed.

Lemma C1_best_per_category_witness :
  NoDup (map normalized_distance_of [note (run 2 "21K" 6000)])
  /\ Forall marked [note (run 2 "21K" 6000)]
  /\ Forall (fastest_in three_half_marathons) [note (run 2 "21K" 6000)].
Proof.
  apply (proj1 C1_best_per_category three_half_marathons).
  - apply (bool_decide_unpack _). vm_compute. exact I.
  - vm_compute. reflexivity.
Defined.

(** ** Ordering by key *)

Lemma td_le_antisym a b : td_le a b -> td_le b a -> a = b.
Proof. destruct a, b; simpl; try tauto. intros. f_equal. lia. Qed.


Lemma StronglySorted_impl {A} (R1 R2 : relation A) l :
  (forall x y, R1 x y -> R2 x y) -> StronglySorted R1 l -> StronglySorted R2 l.
Proof.
  intros Himp. induction 1 as [|x l _ IH Hall]; constructor; [done|].
  eapply Forall_impl; eauto.
Qed.





(** ** Aggregation over participants *)

Lemma filter_in_category_nil category df :
  Forall (fun r => normalized_distance_of r <> PStr category) df ->
  List.filter (BestResults.in_category category) df = [].
Proof.
  induction 1 as [|r df Hr _ IH]; [done|].
  cbn [List.filter]. destruct (BestResults.in_category category r) eqn:Hc; [|done].
  by apply in_category_true in Hc.
Qed.

Section Aggregation.

Variable to_timedelta : pyval -> timedelta.
Variable fetch : pystr -> pystr -> response.
Variable S : sorter.

Let fetch_best_result := BestResults.fetch_best_result to_timedelta fetch.
Let collect := BestResults.collect to_timedelta fetch.
Let best_results_for_category :=
  BestResults.best_results_for_category to_timedelta fetch S.







End Aggregation.



(** ** Categories without a duration *)

Lemma sort_values_nil (S : sorter) {A} (key : A -> timedelta) :
  sort_values S key [] = [].
Proof. apply Permutation_nil. symmetry. apply sort_values_perm. Qed.

Lemma best_rows_nothing_kept df :
  Forall (fun r => SinglePerson.for_best r = false) df ->
  SinglePerson.best_rows df = Ok [].
Proof.
  intros Hall. unfold SinglePerson.best_rows.
  replace (List.filter SinglePerson.for_best df) with (@nil frame_row); [done|].
  symmetry. induction Hall as [|r df Hr _ IH]; [done|].
  cbn [List.filter]. by rewrite Hr.
Qed.

(** C8: where the empty time text parses to [NaT], a participant whose
    only 10K row holds no time makes [fetch_best_result] raise, and with it
    the whole aggregation; the single-person script raises on such a page
    as well. The selection is empty, without an exception, only when no
    row is in a category it selects from. *)
Theorem C8_no_duration_raises
  (to_timedelta : pyval -> timedelta) (fetch : pystr -> pystr -> response)
  (S : sorter) :
  to_timedelta (PStr []) = None ->
  (forall first_name last_name,
     fetch first_name last_name = unfinished_page ->
     BestResults.fetch_best_result to_timedelta fetch first_name last_name
       (py "10K") = Raise ValueError
     /\ forall rest,
          BestResults.best_results_for_category to_timedelta fetch S
            ((first_name, last_name) :: rest) (py "10K") = Raise ValueError)
  /\ SinglePerson.fetch_and_process_results to_timedelta S untimed_page
     = Raise ValueError
  /\ SinglePerson.best_rows [untimed_run] = Raise ValueError
  /\ (forall first_name last_name,
        BestResults.best_in_category first_name last_name (py "10K") [untimed_run]
        = Raise ValueError)
  /\ (forall df,
        Forall (fun r => SinglePerson.for_best r = false) df ->
        SinglePerson.best_rows df = Ok []
        /\ SinglePerson.ordered S [] = [])
  /\ (forall first_name last_name category df,
        Forall (fun r => normalized_distance_of r <> PStr category) df ->
        BestResults.best_in_category first_name last_name category df = Ok None).
Proof.
  intros Hnat.
  assert (Hraise : forall first_name last_name,
            fetch first_name last_name = unfinished_page ->
            BestResults.fetch_best_result to_timedelta fetch first_name last_name
              (py "10K") = Raise ValueError).
  { intros first_name last_name Hf. unfold BestResults.fetch_best_result.
    rewrite Hf. unfold unfinished_page. vm_compute. rewrite Hnat. reflexivity. }
  split; [|split; [|split; [|split; [|split]]]].
  - intros first_name last_name Hf. split; [by apply Hraise|].
    intros rest. unfold BestResults.best_results_for_category.
    cbn [BestResults.collect]. by rewrite Hraise.
  - unfold untimed_page. vm_compute. rewrite Hnat. reflexivity.
  - vm_compute. reflexivity.
  - intros first_name last_name. vm_compute. reflexivity.
  - intros df Hall. split; [by apply best_rows_nothing_kept|].
    apply sort_values_nil.
  - intros first_name last_name category df Hnone.
    unfold BestResults.best_in_category.
    by rewrite (filter_in_category_nil category df Hnone).
Qed.

Lemma C8_no_duration_raises_witness :
  BestResults.fetch_best_result clock (fun _ _ => unfinished_page)
    (py "A") (py "Runner") (py "10K") = Raise ValueError
  /\ SinglePerson.fetch_and_process_results clock merge_sorter untimed_page
     = Raise ValueError.
Proof.
  destruct (C8_no_duration_raises clock (fun _ _ => unfinished_page) merge_sorter)
    as (Hclass & Hsingle & _).
  - vm_compute. reflexivity.
  - split; [|exact Hsingle]. by apply Hclass.
Defined.

(** * Further properties *)

(** ** White space and substrings *)

Lemma lstrip_blank w s : blank w -> lstrip (w ++ s) = lstrip s.
Proof. induction 1 as [|c w Hc _ IH]; [done|]. cbn. by rewrite Hc. Qed.

Lemma lstrip_split s : exists w, blank w /\ s = w ++ lstrip s.
Proof.
  induction s as [|c s (w & Hw & IH)]; [exists []; split; [constructor|done]|].
  cbn. destruct (isspace c) eqn:Hc.
  - exists (c :: w). split; [by constructor|]. cbn [app]. by f_equal.
  - exists []. split; [constructor|done].
Qed.

Lemma lstrip_head s c t : lstrip s = c :: t -> isspace c = false.
Proof.
  induction s as [|x s IH]; [done|]. cbn.
  destruct (isspace x) eqn:Hx; [done|]. by intros [= <- _].
Qed.

Lemma lstrip_all_blank w : blank w -> lstrip w = [].
Proof. intros Hw. rewrite <- (app_nil_r w). by rewrite lstrip_blank. Qed.

Lemma blank_rev w : blank w -> blank (rev w).
Proof.
  unfold blank. rewrite !Forall_forall. intros H c Hc. apply H.
  by rewrite list_elem_of_In, in_rev, <- list_elem_of_In.
Qed.

Lemma rstrip_blank s w : blank w -> rstrip (s ++ w) = rstrip s.
Proof.
  intros Hw. unfold rstrip. rewrite rev_app_distr.
  by rewrite lstrip_blank by by apply blank_rev.
Qed.

(** [strip] does not see white space around the text. *)
Lemma strip_pad w1 s w2 : blank w1 -> blank w2 -> strip (w1 ++ s ++ w2) = strip s.
Proof.
  intros H1 H2. unfold strip. rewrite lstrip_blank by done.
  destruct (lstrip_split s) as (w & Hw & Hs).
  destruct (lstrip s) as [|c t] eqn:Hl.
  - rewrite app_nil_r in Hs. subst s.
    rewrite lstrip_all_blank.
    + unfold rstrip. cbn. reflexivity.
    + unfold blank in *. by apply Forall_app.
  - assert (Hc := lstrip_head _ _ _ Hl).
    rewrite Hs at 1. rewrite <- app_assoc, lstrip_blank by done.
    cbn [app lstrip]. rewrite Hc.
    change (c :: t ++ w2) with ((c :: t) ++ w2). by apply rstrip_blank.
Qed.

(** What [strip] returns has no white space at either end. *)
Lemma strip_is_trimmed s : trimmed (strip s) = true.
Proof.
  unfold strip, rstrip.
  destruct (lstrip_split (rev (lstrip s))) as (w & Hw & Hr).
  destruct (lstrip (rev (lstrip s))) as [|c t] eqn:Hl; [done|].
  assert (Hc := lstrip_head _ _ _ Hl).
  assert (Hu : lstrip s = rev (c :: t) ++ rev w).
  { rewrite <- rev_app_distr, <- Hr. by rewrite rev_involutive. }
  destruct (rev (c :: t)) as [|x u] eqn:Hx.
  { apply (f_equal (@rev N)) in Hx. rewrite rev_involutive in Hx. discriminate Hx. }
  unfold trimmed. apply andb_true_iff. split; apply negb_true_iff.
  - by apply (lstrip_head s x (u ++ rev w)).
  - cbn [rev] in Hx. rewrite <- Hx. by rewrite last_last.
Qed.

Lemma strip_idempotent s : strip (strip s) = strip s.
Proof. apply strip_trimmed, strip_is_trimmed. Qed.

Lemma contains_split sub s :
  contains sub s = true <-> exists a b, s = a ++ sub ++ b.
Proof.
  assert (Hstart : forall p t, startswith p t = true <-> exists b, t = p ++ b).
  { induction p as [|x p IH]; intros t; cbn.
    - split; [eauto|done].
    - destruct t as [|y t]; [split; [done|by intros [? ?]]|].
      rewrite andb_true_iff, N.eqb_eq, IH. split.
      + intros [-> [b ->]]. eauto.
      + intros [b [= -> ->]]. eauto. }
  induction s as [|c s IH]; cbn.
  - rewrite orb_false_r, Hstart. split.
    + intros [b Hb]. by exists [], b.
    + intros (a & b & Hab). destruct a; [eauto|done].
  - rewrite orb_true_iff, Hstart, IH. split.
    + intros [[b Hb] | (a & b & ->)]; [by exists [], b | by exists (c :: a), b].
    + intros (a & b & Hab). destruct a as [|x a].
      * left. eauto.
      * right. injection Hab as -> ->. eauto.
Qed.

Lemma lstrip_keeps a c sub b :
  isspace c = false -> exists a', lstrip (a ++ (c :: sub) ++ b) = a' ++ (c :: sub) ++ b.
Proof.
  intros Hc. induction a as [|x a [a' IH]]; cbn.
  - rewrite Hc. by exists [].
  - destruct (isspace x); [by exists a' | by exists (x :: a)].
Qed.

(** [strip] keeps every occurrence of a piece of text that neither starts
    nor ends with white space. *)
Lemma contains_strip sub s :
  sub <> [] -> trimmed sub = true ->
  contains sub s = true -> contains sub (strip s) = true.
Proof.
  intros Hne Htr (a & b & ->)%contains_split. apply contains_split.
  destruct sub as [|c sub]; [done|].
  unfold trimmed in Htr. apply andb_true_iff in Htr as [Hc Hl].
  apply negb_true_iff in Hc, Hl.
  destruct (lstrip_keeps a c sub b Hc) as [a' Ha]. unfold strip, rstrip. rewrite Ha.
  rewrite !rev_app_distr.
  destruct (rev (c :: sub)) as [|x u] eqn:Hx.
  { apply (f_equal (@rev N)) in Hx. rewrite rev_involutive in Hx. discriminate Hx. }
  assert (Hxs : isspace x = false).
  { apply (f_equal (@rev N)) in Hx. rewrite rev_involutive in Hx. cbn [rev] in Hx.
    by rewrite Hx, last_last in Hl. }
  rewrite <- app_assoc.
  destruct (lstrip_keeps (rev b) x u (rev a') Hxs) as [b' Hb]. rewrite Hb.
  rewrite !rev_app_distr, rev_involutive, <- Hx, rev_involutive, <- app_assoc.
  eauto.
Qed.

(** ** More on the category normalizer *)

(** X1: white space around a label does not change its category, in
    either copy of [normalize_distance]. *)
Theorem X1_normalize_distance_padding (w1 s w2 : pystr) :
  blank w1 -> blank w2 ->
  BestResults.normalize_distance (PStr (w1 ++ s ++ w2))
  = BestResults.normalize_distance (PStr s)
  /\ SinglePerson.normalize_distance (PStr (w1 ++ s ++ w2))
     = SinglePerson.normalize_distance (PStr s).
Proof.
  intros H1 H2.
  unfold BestResults.normalize_distance, SinglePerson.normalize_distance.
  cbn [str isna]. by rewrite strip_pad.
Qed.

Lemma X1_normalize_distance_padding_witness :
  BestResults.normalize_distance (PStr ([32; 9] ++ py "21097" ++ [10]))
  = BestResults.normalize_distance (PStr (py "21097"))
  /\ SinglePerson.normalize_distance (PStr ([32; 9] ++ py "21097" ++ [10]))
     = SinglePerson.normalize_distance (PStr (py "21097")).
Proof.
  apply (X1_normalize_distance_padding [32; 9] (py "21097") [10]);
    repeat constructor.
Defined.

Ltac alias_cases E :=
  apply bool_decide_eq_true in E;
  repeat (apply elem_of_cons in E as [E | E]);
  [ .. | by apply elem_of_nil in E ].

(** X2: a label that contains "15" anywhere is classified as 15K by both
    copies, whatever else it contains. *)
Theorem X2_fifteen_anywhere (s : pystr) :
  contains (py "15") s = true ->
  BestResults.normalize_distance (PStr s) = PStr (py "15K")
  /\ SinglePerson.normalize_distance (PStr s) = PStr (py "15K").
Proof.
  intros H. apply (contains_strip (py "15")) in H; [|done|done].
  unfold BestResults.normalize_distance, SinglePerson.normalize_distance.
  cbn [str isna orb].
  assert (Hne : bool_decide (strip s = []) = false).
  { apply bool_decide_eq_false. intros E. by rewrite E in H. }
  rewrite Hne, H. split.
  - destruct (in_list (strip s) BestResults.aliases_10K) eqn:E1;
      [alias_cases E1; rewrite E1 in H; vm_compute in H; discriminate H|].
    destruct (in_list (strip s) BestResults.aliases_21K) eqn:E2;
      [alias_cases E2; rewrite E2 in H; vm_compute in H; discriminate H|].
    destruct (in_list (strip s) BestResults.aliases_42K) eqn:E3;
      [alias_cases E3; rewrite E3 in H; vm_compute in H; discriminate H|].
    done.
  - destruct (in_list (strip s) SinglePerson.aliases_10K) eqn:E1;
      [alias_cases E1; rewrite E1 in H; vm_compute in H; discriminate H|].
    destruct (in_list (strip s) SinglePerson.aliases_21K) eqn:E2;
      [alias_cases E2; rewrite E2 in H; vm_compute in H; discriminate H|].
    destruct (in_list (strip s) SinglePerson.aliases_42K) eqn:E3;
      [alias_cases E3; rewrite E3 in H; vm_compute in H; discriminate H|].
    done.
Qed.

Lemma X2_fifteen_anywhere_witness :
  BestResults.normalize_distance (PStr (py "21500")) = PStr (py "15K")
  /\ SinglePerson.normalize_distance (PStr (py "21500")) = PStr (py "15K").
Proof. apply (X2_fifteen_anywhere (py "21500")). vm_compute. reflexivity. Defined.

(** X3: the two copies of [normalize_distance] disagree exactly on the
    values whose trimmed text is one of the five labels that only the
    class lists under 21K; there the class answers 21K and the
    single-person script unknown. *)
Theorem X3_copies_differ_on_five_labels (value : pyval) :
  (BestResults.normalize_distance value <> SinglePerson.normalize_distance value
   <-> isna value = false /\ strip (str value) ∈ class_only_21K)
  /\ (isna value = false -> strip (str value) ∈ class_only_21K ->
      BestResults.normalize_distance value = PStr (py "21K")
      /\ SinglePerson.normalize_distance value = PNaN).
Proof.
  assert (Hin : isna value = false -> strip (str value) ∈ class_only_21K ->
            BestResults.normalize_distance value = PStr (py "21K")
            /\ SinglePerson.normalize_distance value = PNaN).
  { intros Hna Hs.
    unfold BestResults.normalize_distance, SinglePerson.normalize_distance.
    rewrite Hna. unfold class_only_21K in Hs.
    repeat (apply elem_of_cons in Hs as [Hs | Hs]);
      try (by apply elem_of_nil in Hs); rewrite Hs; by vm_compute. }
  split; [|exact Hin]. split.
  - intros Hne. destruct (isna value) eqn:Hna.
    { exfalso. apply Hne.
      unfold BestResults.normalize_distance, SinglePerson.normalize_distance.
      by rewrite Hna. }
    split; [done|].
    destruct (decide (strip (str value) ∈ class_only_21K)) as [|Hnot]; [done|].
    exfalso. apply Hne.
    unfold BestResults.normalize_distance, SinglePerson.normalize_distance.
    replace (in_list (strip (str value)) BestResults.aliases_21K)
      with (in_list (strip (str value)) SinglePerson.aliases_21K); [done|].
    apply bool_decide_ext.
    unfold SinglePerson.aliases_21K, BestResults.aliases_21K.
    unfold class_only_21K in Hnot.
    rewrite !elem_of_cons, elem_of_nil in Hnot.
    rewrite !elem_of_cons, elem_of_nil. tauto.
  - intros [Hna Hs]. destruct (Hin Hna Hs) as [-> ->]. by vm_compute.
Qed.

Lemma X3_copies_differ_on_five_labels_witness :
  BestResults.normalize_distance (PStr (He.hatzi ++ [He.hyphen] ++ He.marathon))
  = PStr (py "21K")
  /\ SinglePerson.normalize_distance (PStr (He.hatzi ++ [He.hyphen] ++ He.marathon))
     = PNaN.
Proof.
  apply (proj2 (X3_copies_differ_on_five_labels
                  (PStr (He.hatzi ++ [He.hyphen] ++ He.marathon)))).
  - reflexivity.
  - apply (bool_decide_unpack _). vm_compute. exact I.
Defined.

(** X4: a value is classified as 5K exactly when it is not null and its
    trimmed text contains "5" but neither "2" nor "15"; no alias list
    stands in the way. *)
Theorem X4_five_exactly (value : pyval) :
  let s := strip (str value) in
  let is_5K :=
    isna value = false /\ contains (py "5") s = true
    /\ contains (py "2") s = false /\ contains (py "15") s = false in
  (BestResults.normalize_distance value = PStr (py "5K") <-> is_5K)
  /\ (SinglePerson.normalize_distance value = PStr (py "5K") <-> is_5K).
Proof.
  cbv zeta. set (s := strip (str value)).
  assert (Hne : contains (py "5") s = true -> bool_decide (s = []) = false).
  { intros H. apply bool_decide_eq_false. intros E. by rewrite E in H. }
  split; split.
  - unfold BestResults.normalize_distance. fold s.
    destruct (isna value); [done|]. cbn [orb].
    destruct (bool_decide (s = [])); [done|].
    repeat match goal with
           | |- context [if in_list s ?l then _ else _] =>
               destruct (in_list s l);
               [intros E; vm_compute in E; discriminate E|]
           end.
    destruct (contains (py "15") s); [intros E; vm_compute in E; discriminate E|].
    destruct (contains (py "5") s), (contains (py "2") s); cbn; try done.
  - intros (Hna & H5 & H2 & H15).
    unfold BestResults.normalize_distance. fold s.
    rewrite Hna, (Hne H5), H15, H5, H2. cbn [orb negb andb].
    destruct (in_list s BestResults.aliases_10K) eqn:E1;
      [alias_cases E1; rewrite E1 in H5, H2; vm_compute in H5, H2; congruence|].
    destruct (in_list s BestResults.aliases_21K) eqn:E2;
      [alias_cases E2; rewrite E2 in H5, H2; vm_compute in H5, H2; congruence|].
    destruct (in_list s BestResults.aliases_42K) eqn:E3;
      [alias_cases E3; rewrite E3 in H5, H2; vm_compute in H5, H2; congruence|].
    done.
  - unfold SinglePerson.normalize_distance. fold s.
    destruct (isna value); [done|]. cbn [orb].
    destruct (bool_decide (s = [])); [done|].
    repeat match goal with
           | |- context [if in_list s ?l then _ else _] =>
               destruct (in_list s l);
               [intros E; vm_compute in E; discriminate E|]
           end.
    destruct (contains (py "15") s); [intros E; vm_compute in E; discriminate E|].
    destruct (contains (py "5") s), (contains (py "2") s); cbn; try done.
  - intros (Hna & H5 & H2 & H15).
    unfold SinglePerson.normalize_distance. fold s.
    rewrite Hna, (Hne H5), H15, H5, H2. cbn [orb negb andb].
    destruct (in_list s SinglePerson.aliases_10K) eqn:E1;
      [alias_cases E1; rewrite E1 in H5, H2; vm_compute in H5, H2; congruence|].
    destruct (in_list s SinglePerson.aliases_21K) eqn:E2;
      [alias_cases E2; rewrite E2 in H5, H2; vm_compute in H5, H2; congruence|].
    destruct (in_list s SinglePerson.aliases_42K) eqn:E3;
      [alias_cases E3; rewrite E3 in H5, H2; vm_compute in H5, H2; congruence|].
    done.
Qed.

Lemma X4_five_exactly_witness :
  BestResults.normalize_distance (PStr (py "5000")) = PStr (py "5K").
Proof.
  apply (proj1 (X4_five_exactly (PStr (py "5000")))).
  repeat split; vm_compute; reflexivity.
Defined.

(** ** More on the time resolver *)

(** X5: what [choose_best_time_string] returns has no white space at
    either end and is never one of the null times "00:00:00", "0", "NaT",
    "None"; it is the empty text exactly when both fields are excluded. *)
Theorem X5_chosen_time_is_valid (row : gmap pystr pyval) :
  let chosen := BestResults.choose_best_time_string row in
  let excluded col :=
    in_list (BestResults.time_text row col) BestResults.null_times in
  trimmed chosen = true
  /\ (chosen = [] \/ chosen ∉ BestResults.null_times)
  /\ (chosen = [] <->
      excluded He.col_personal = true /\ excluded He.col_result = true).
Proof.
  cbv zeta. unfold BestResults.choose_best_time_string.
  cbn [BestResults.first_valid].
  destruct (in_list (BestResults.time_text row He.col_personal) _) eqn:Hp;
    [destruct (in_list (BestResults.time_text row He.col_result) _) eqn:Hr|];
    cbn [negb].
  - split; [done|]. split; [by left|]. done.
  - split; [apply strip_is_trimmed|]. split.
    + right. by apply bool_decide_eq_false in Hr.
    + split; [|by intros [_ ?]]. intros E. rewrite E in Hr.
      vm_compute in Hr. discriminate Hr.
  - split; [apply strip_is_trimmed|]. split.
    + right. by apply bool_decide_eq_false in Hp.
    + split; [|by intros [? _]]. intros E. rewrite E in Hp.
      vm_compute in Hp. discriminate Hp.
Qed.

(** X6: on a row whose two time cells hold trimmed text, [parse_time] of
    the single-person script parses the very text that
    [choose_best_time_string] picks, provided the personal time is not
    the text "NaT" or "None" and, when the personal time is a null time,
    the result is none. *)
Theorem X6_resolvers_agree (to_timedelta : pyval -> timedelta)
  (row : gmap pystr pyval) (p r : pystr) :
  row !! He.col_personal = Some (PStr p) ->
  row !! He.col_result = Some (PStr r) ->
  trimmed p = true -> trimmed r = true ->
  p ∉ [py "NaT"; py "None"] ->
  (p ∈ BestResults.null_times -> r ∉ BestResults.null_times) ->
  SinglePerson.parse_time to_timedelta row
  = to_timedelta (PStr (BestResults.choose_best_time_string row)).
Proof.
  intros Hp Hr Htp Htr Hnat Hres.
  unfold SinglePerson.parse_time, BestResults.choose_best_time_string.
  cbn [BestResults.first_valid]. unfold BestResults.time_text.
  rewrite Hp, Hr. cbn [default str]. rewrite !strip_trimmed by done.
  unfold in_list.
  assert (Hsame : PStr p ∈ SinglePerson.null_times <-> p ∈ BestResults.null_times).
  { unfold SinglePerson.null_times, BestResults.null_times.
    rewrite !elem_of_cons, !elem_of_nil in *.
    split.
    - intros [[= ->] | [[= ->] | [[= ->] | [[=] | [[=] | []]]]]]; tauto.
    - intros [-> | [-> | [-> | [-> | [-> | []]]]]]; tauto. }
  destruct (decide (p ∈ BestResults.null_times)) as [Hin | Hout].
  - rewrite (bool_decide_eq_true_2 _ (proj2 Hsame Hin)).
    rewrite (bool_decide_eq_true_2 _ Hin). cbn [negb].
    by rewrite (bool_decide_eq_false_2 _ (Hres Hin)).
  - rewrite (bool_decide_eq_false_2 (PStr p ∈ _)) by by rewrite Hsame.
    by rewrite (bool_decide_eq_false_2 _ Hout).
Qed.

Lemma X6_resolvers_agree_witness :
  SinglePerson.parse_time clock (timed_row "00:00:00" "00:41:00")
  = clock (PStr (BestResults.choose_best_time_string
                   (timed_row "00:00:00" "00:41:00"))).
Proof.
  apply (X6_resolvers_agree clock _ (py "00:00:00") (py "00:41:00"));
    try (vm_compute; reflexivity).
  - intros E. apply (bool_decide_pack _) in E. vm_compute in E. exact E.
  - intros _ E. apply (bool_decide_pack _) in E. vm_compute in E. exact E.
Defined.

(** ** More on birth years *)

Lemma split_nonempty sep s : split sep s <> [].
Proof.
  destruct s as [|c t]; [done|]. cbn. destruct (c =? sep); [done|].
  by destruct (split sep t).
Qed.

Lemma split_length s : length (split 47 s) = Datatypes.S (slashes s).
Proof.
  unfold slashes. induction s as [|c t IH]; [done|].
  cbn. destruct (c =? 47); cbn; [by rewrite IH|].
  destruct (split 47 t) eqn:E; [by apply split_nonempty in E|]. by rewrite <- IH.
Qed.

Lemma contains_slash s : contains (py "/") s = true <-> (1 <= slashes s)%nat.
Proof.
  change (py "/") with [47]. rewrite contains_single. unfold slashes.
  induction s as [|c t IH]; cbn.
  - split; [by intros ?%elem_of_nil | lia].
  - rewrite elem_of_cons. destruct (N.eqb_spec c 47) as [-> | Hne]; cbn.
    + split; [lia | by left].
    + rewrite <- IH. split; [by intros [? | ?] | by right].
Qed.

(** X7: [normalize_year] raises on text with a slash and on nothing else:
    [IndexError] exactly when the text has one slash, [ValueError] exactly
    when it has two or more and the third component is no integer
    literal. *)
Theorem X7_normalize_year_raises (y : pyval) (e : pyexn) :
  BestResults.normalize_year y = Raise e <->
  exists s, y = PStr s
    /\ ((e = IndexError /\ slashes s = 1%nat)
        \/ (e = ValueError /\ (2 <= slashes s)%nat
            /\ exists part, split 47 s !! 2%nat = Some part
                 /\ py_int part = None)).
Proof.
  split.
  - destruct y as [| | | z | s]; try done. unfold BestResults.normalize_year.
    cbn [isna]. destruct (contains (py "/") s) eqn:Hc.
    + apply contains_slash in Hc.
      destruct (split 47 s !! 2%nat) as [part|] eqn:Hpart.
      * pose proof (lookup_lt_Some _ _ _ Hpart) as Hlen.
        rewrite split_length in Hlen.
        destruct (py_int part) eqn:Hint; [done|]. intros [= <-].
        exists s. split; [done|]. right. split; [done|]. split; [lia|].
        by exists part.
      * apply lookup_ge_None in Hpart. rewrite split_length in Hpart.
        intros [= <-]. exists s. split; [done|]. left. split; [done|]. lia.
    + by destruct (py_int s).
  - intros (s & -> & [[-> Hone] | (-> & Htwo & part & Hpart & Hint)]);
      unfold BestResults.normalize_year; cbn [isna].
    + rewrite (proj2 (contains_slash s)) by lia.
      destruct (split 47 s !! 2%nat) eqn:Hp; [|done].
      apply lookup_lt_Some in Hp. rewrite split_length in Hp. lia.
    + rewrite (proj2 (contains_slash s)) by lia. by rewrite Hpart, Hint.
Qed.

(** X8: in a slash date whose third component reads as a number from 0
    to 99, the year returned lies in 1926..2025 and ends in those two
    digits. *)
Theorem X8_two_digit_years (s part : pystr) (year : Z) :
  split 47 s !! 2%nat = Some part ->
  py_int part = Some year ->
  (0 <= year < 100)%Z ->
  exists r, BestResults.normalize_year (PStr s) = Ok (Some r)
    /\ (1926 <= r <= 2025)%Z /\ (r mod 100 = year)%Z.
Proof.
  intros Hpart Hint Hrange. unfold BestResults.normalize_year. cbn [isna].
  assert (Hc : contains (py "/") s = true).
  { apply contains_slash. apply lookup_lt_Some in Hpart.
    rewrite split_length in Hpart. lia. }
  rewrite Hc, Hpart, Hint.
  destruct (Z.ltb_spec year 100); [|lia].
  destruct (Z.ltb_spec 25 year); eexists; (split; [reflexivity|]); split; try lia.
  - replace (year + 1900)%Z with (year + 19 * 100)%Z by lia.
    rewrite Z.mod_add by lia. apply Z.mod_small. lia.
  - replace (year + 2000)%Z with (year + 20 * 100)%Z by lia.
    rewrite Z.mod_add by lia. apply Z.mod_small. lia.
Qed.

Lemma X8_two_digit_years_witness :
  exists r, BestResults.normalize_year (PStr (py "01/02/07")) = Ok (Some r)
    /\ (1926 <= r <= 2025)%Z /\ (r mod 100 = 7)%Z.
Proof.
  apply (X8_two_digit_years (py "01/02/07") (py "07") 7);
    [vm_compute; reflexivity | vm_compute; reflexivity | lia].
Defined.

Lemma X5_chosen_time_is_valid_witness :
  BestResults.choose_best_time_string (timed_row "0" "NaT") = [].
Proof.
  destruct (X5_chosen_time_is_valid (timed_row "0" "NaT")) as (_ & _ & H).
  apply H. split; vm_compute; reflexivity.
Defined.

Lemma X7_normalize_year_raises_witness :
  exists s, PStr (py "03/90") = PStr s
    /\ ((IndexError = IndexError /\ slashes s = 1%nat)
        \/ (IndexError = ValueError /\ (2 <= slashes s)%nat
            /\ exists part, split 47 s !! 2%nat = Some part
                 /\ py_int part = None)).
Proof.
  apply (proj1 (X7_normalize_year_raises (PStr (py "03/90")) IndexError)).
  vm_compute. reflexivity.
Defined.

(** ** Ties *)

Lemma foldl_snoc {A B} (f : A -> B -> A) a l x :
  foldl f a (l ++ [x]) = f (foldl f a l) x.
Proof. revert a. induction l as [|y l IH]; intros a; cbn; [done|]. apply IH. Qed.

Lemma foldl_better_none_inv rows :
  foldl better None rows = None -> Forall (fun r => race_time r = None) rows.
Proof.
  intros Hf. apply Forall_forall. intros r Hin.
  destruct (race_time r) as [t|] eqn:Ht; [|done].
  destruct (foldl_better_some rows None) as [p Hp]; [|congruence].
  right. exists r. by rewrite Ht.
Qed.

Lemma foldl_better_first rows : forall i t,
  foldl better None rows = Some (i, t) ->
  exists l1 r l2,
    rows = l1 ++ r :: l2 /\ label r = i /\ race_time r = Some t
    /\ (forall r' u, r' ∈ l1 -> race_time r' = Some u -> (t < u)%Z)
    /\ (forall r' u, r' ∈ l2 -> race_time r' = Some u -> (t <= u)%Z).
Proof.
  induction rows as [|x rows IH] using rev_ind; intros i t Hf; [done|].
  rewrite foldl_snoc in Hf.
  destruct (foldl better None rows) as [[j u0]|] eqn:Hacc.
  - destruct (IH j u0 eq_refl) as (l1 & r & l2 & -> & Hl & Ht & H1 & H2).
    unfold better in Hf. destruct (race_time x) as [tx|] eqn:Hx.
    + destruct (Z.ltb_spec tx u0); injection Hf as <- <-.
      * exists (l1 ++ r :: l2), x, []. rewrite Hx.
        split; [done|]. split; [done|]. split; [done|].
        split; [|by intros ? ? ?%elem_of_nil].
        intros r' u Hin Hu. apply elem_of_app in Hin as [Hin | Hin].
        -- specialize (H1 _ _ Hin Hu). lia.
        -- apply elem_of_cons in Hin as [-> | Hin].
           ++ assert (u = u0) by congruence. lia.
           ++ specialize (H2 _ _ Hin Hu). lia.
      * exists l1, r, (l2 ++ [x]). rewrite <- app_assoc. cbn.
        split; [done|]. split; [done|]. split; [done|]. split; [done|].
        intros r' u Hin Hu. apply elem_of_app in Hin as [Hin | Hin]; [eauto|].
        apply list_elem_of_singleton in Hin as ->.
        assert (u = tx) by congruence. lia.
    + injection Hf as <- <-.
      exists l1, r, (l2 ++ [x]). rewrite <- app_assoc. cbn.
      split; [done|]. split; [done|]. split; [done|]. split; [done|].
      intros r' u Hin Hu. apply elem_of_app in Hin as [Hin | Hin]; [eauto|].
      apply list_elem_of_singleton in Hin as ->. congruence.
  - apply foldl_better_none_inv in Hacc. rewrite Forall_forall in Hacc.
    unfold better in Hf. destruct (race_time x) as [tx|] eqn:Hx; [|done].
    injection Hf as <- <-. exists rows, x, [].
    split; [done|]. split; [done|]. split; [done|]. split.
    + intros r' u Hin Hu. rewrite (Hacc _ Hin) in Hu. done.
    + by intros ? ? ?%elem_of_nil.
Qed.

(** [idxmin] points at the first of the rows that hold the smallest
    duration: every row before it holds a larger one or none. *)
Lemma idxmin_first rows i :
  idxmin rows = Ok i ->
  exists l1 r l2 t,
    rows = l1 ++ r :: l2 /\ label r = i /\ race_time r = Some t
    /\ (forall r' u, r' ∈ l1 -> race_time r' = Some u -> (t < u)%Z)
    /\ (forall r' u, r' ∈ l2 -> race_time r' = Some u -> (t <= u)%Z).
Proof.
  unfold idxmin. destruct (foldl better None rows) as [[j t]|] eqn:Hf; [|done].
  intros [= ->].
  destruct (foldl_better_first _ _ _ Hf) as (l1 & r & l2 & H).
  by exists l1, r, l2, t.
Qed.

Lemma filter_split {A} (p : A -> bool) df l1 r l2 :
  List.filter p df = l1 ++ r :: l2 ->
  exists d1 d2, df = d1 ++ r :: d2
    /\ List.filter p d1 = l1 /\ List.filter p d2 = l2.
Proof.
  revert l1. induction df as [|x df IH]; intros l1; cbn.
  - by destruct l1.
  - destruct (p x) eqn:Hx.
    + destruct l1 as [|y l1]; cbn.
      * intros [= <- Hrest]. exists [], df. by rewrite Hrest.
      * intros [= <- Hrest]. destruct (IH _ Hrest) as (d1 & d2 & -> & H1 & H2).
        exists (x :: d1), d2. cbn. by rewrite Hx, H1, H2.
    + intros Hrest. destruct (IH _ Hrest) as (d1 & d2 & -> & H1 & H2).
      exists (x :: d1), d2. cbn. by rewrite Hx, H1, H2.
Qed.

Lemma filter_filter {A} (p q : A -> bool) l :
  List.filter q (List.filter p l) = List.filter (fun x => p x && q x) l.
Proof.
  induction l as [|x l IH]; [done|]. cbn.
  destruct (p x); cbn; [|done]. destruct (q x); by rewrite IH.
Qed.

(** The row [idxmin] selects in a filtered frame, with its place in the
    frame. *)
Lemma idxmin_filter_first (p : frame_row -> bool) df i :
  idxmin (List.filter p df) = Ok i ->
  exists d1 r d2 t,
    df = d1 ++ r :: d2 /\ p r = true /\ label r = i /\ race_time r = Some t
    /\ (forall r' u, r' ∈ d1 -> p r' = true -> race_time r' = Some u -> (t < u)%Z)
    /\ (forall r' u, r' ∈ d2 -> p r' = true -> race_time r' = Some u -> (t <= u)%Z).
Proof.
  intros (l1 & r & l2 & t & Hsplit & Hl & Ht & H1 & H2)%idxmin_first.
  assert (Hr : r ∈ List.filter p df) by (rewrite Hsplit; set_solver).
  apply elem_of_filter_bool in Hr as [_ Hr].
  apply filter_split in Hsplit as (d1 & d2 & -> & <- & <-).
  exists d1, r, d2, t. repeat split; try done.
  - intros r' u Hin Hp. apply H1. by apply elem_of_filter_bool.
  - intros r' u Hin Hp. apply H2. by apply elem_of_filter_bool.
Qed.

Lemma best_rows_first df best :
  NoDup (map label df) ->
  SinglePerson.best_rows df = Ok best ->
  exists rows, best = map note rows /\ Forall (first_fastest df) rows.
Proof.
  intros Hnd. unfold SinglePerson.best_rows.
  set (dfb := List.filter SinglePerson.for_best df).
  destruct (mapM _ (SinglePerson.group_keys dfb)) as [idxs|] eqn:Hidx; [|done].
  cbn. destruct (mapM (loc df) idxs) as [rows|] eqn:Hrows; [|done].
  cbn. intros [= <-]. exists rows. split; [done|].
  apply mapM_spec in Hidx. apply mapM_spec in Hrows.
  revert rows Hrows. induction Hidx as [|k i keys idxs Hi _ IH];
    intros rows Hrows; inversion Hrows as [|? r ? rows' Hl Hrest]; subst;
    constructor; [|by apply IH].
  unfold SinglePerson.group, dfb in Hi. rewrite filter_filter in Hi.
  apply idxmin_filter_first in Hi as (d1 & r0 & d2 & t & Hdf & Hp & Hlab & Ht & H1 & _).
  assert (Hin0 : r0 ∈ df) by (rewrite Hdf; set_solver).
  rewrite <- Hlab, (loc_unique df r0 Hnd Hin0) in Hl. injection Hl as <-.
  apply andb_true_iff in Hp as [Hfb Hk]. apply bool_decide_eq_true in Hk.
  exists d1, d2, t. split; [done|]. split; [done|].
  intros r' u Hin' Hr' Hu. apply (H1 r' u); [done| |done].
  apply andb_true_iff. split.
  - unfold SinglePerson.for_best in *. by rewrite Hr'.
  - apply bool_decide_eq_true. congruence.
Qed.

(** X9: between rows of one category with the same smallest duration the
    earliest row of the frame is the one selected, by [best_in_category]
    and by [best_rows]. *)
Theorem X9_earliest_of_equal_times :
  (forall first_name last_name category df b,
     NoDup (map label df) ->
     BestResults.best_in_category first_name last_name category df = Ok (Some b) ->
     exists r,
       b = note (set_cell He.col_last (PStr last_name)
                  (set_cell He.col_first (PStr first_name) r))
       /\ normalized_distance_of r = PStr category
       /\ first_fastest df r)
  /\ (forall df best b,
        NoDup (map label df) ->
        SinglePerson.best_rows df = Ok best ->
        b ∈ best ->
        exists r, b = note r /\ first_fastest df r).
Proof.
  split.
  - intros first_name last_name category df b Hnd.
    unfold BestResults.best_in_category.
    set (df_cat := List.filter (BestResults.in_category category) df).
    assert (Hnd' : NoDup (map label df_cat)) by by apply NoDup_label_filter.
    destruct df_cat as [|x df_cat'] eqn:Hdf; [done|]. rewrite <- Hdf in *.
    destruct (idxmin df_cat) as [i|] eqn:Hi; [|done]. cbn.
    destruct (loc df_cat i) as [r'|] eqn:Hl; [|done]. cbn. intros [= <-].
    unfold df_cat in Hi.
    apply idxmin_filter_first in Hi as (d1 & r & d2 & t & Hsplit & Hp & Hlab & Ht & H1 & _).
    assert (Hin : r ∈ df_cat).
    { apply elem_of_filter_bool. split; [rewrite Hsplit; set_solver | done]. }
    rewrite <- Hlab, (loc_unique df_cat r Hnd' Hin) in Hl. injection Hl as <-.
    apply in_category_true in Hp.
    exists r. split; [done|]. split; [done|].
    exists d1, d2, t. split; [done|]. split; [done|].
    intros r' u Hin' Hr' Hu. apply (H1 r' u); [done| |done].
    apply in_category_true. congruence.
  - intros df best b Hnd Hbest Hb.
    apply best_rows_first in Hbest as (rows & -> & Hall); [|done].
    apply list_elem_of_fmap in Hb as (r & -> & Hr).
    rewrite Forall_forall in Hall. eauto.
Qed.

Lemma X9_earliest_of_equal_times_witness :
  exists r, note (run 1 "10K" 3000) = note r /\ first_fastest tied_runs r.
Proof.
  apply (proj2 X9_earliest_of_equal_times tied_runs [note (run 1 "10K" 3000)]).
  - apply (bool_decide_unpack _). vm_compute. exact I.
  - vm_compute. reflexivity.
  - by left.
Defined.

(** ** The single-person pipeline *)

Lemma single_data_frame_categories to_timedelta rows : forall i df,
  SinglePerson.data_frame to_timedelta i rows = Ok df ->
  Forall (fun r => normalized_distance_of r ∈ categories) df.
Proof.
  induction rows as [|row rows IH]; intros i df; cbn.
  - intros [= <-]. constructor.
  - unfold SinglePerson.derive.
    destruct (row !! He.col_category) as [v|]; [|done]. cbn.
    destruct (SinglePerson.data_frame to_timedelta (Datatypes.S i) rows)
      as [rs|] eqn:Hrs; [|done].
    cbn. intros [= <-]. constructor; [|by eapply IH].
    unfold normalized_distance_of. cbn [cell]. rewrite lookup_insert_eq.
    apply single_normalize_distance_cases.
Qed.

Lemma category_known x : x ∈ categories -> x <> PNaN -> in_order x.
Proof.
  unfold categories, in_order, SinglePerson.order. cbn [map].
  rewrite !elem_of_cons, !elem_of_nil. tauto.
Qed.

Lemma in_order_for_best r :
  in_order (normalized_distance_of r) -> SinglePerson.for_best r = true.
Proof.
  unfold in_order, SinglePerson.for_best, SinglePerson.order. cbn [map].
  rewrite !elem_of_cons, elem_of_nil.
  intros [-> | [-> | [-> | [-> | [-> | []]]]]]; by vm_compute.
Qed.

Lemma order_key_inj x y :
  in_order x -> in_order y ->
  SinglePerson.order_key x = SinglePerson.order_key y -> x = y.
Proof.
  unfold in_order, SinglePerson.order. cbn [map].
  rewrite !elem_of_cons, !elem_of_nil.
  intros [-> | [-> | [-> | [-> | [-> | []]]]]]
         [-> | [-> | [-> | [-> | [-> | []]]]]] E;
    try done; vm_compute in E; discriminate E.
Qed.

Lemma NoDup_map_inj {A B} (f : A -> B) (l : list A) x y :
  NoDup (map f l) -> x ∈ l -> y ∈ l -> f x = f y -> x = y.
Proof.
  induction l as [|a l IH]; [by intros _ ?%elem_of_nil|].
  cbn [map]. intros [Ha Hnd]%NoDup_cons Hx Hy E.
  assert (Hmem : forall z, z ∈ l -> f z ∈ map f l).
  { intros z Hz. apply list_elem_of_In, in_map. by apply list_elem_of_In. }
  apply elem_of_cons in Hx as [-> | Hx]; apply elem_of_cons in Hy as [-> | Hy];
    [done | | | by apply IH].
  - exfalso. apply Ha. rewrite E. by apply Hmem.
  - exfalso. apply Ha. rewrite <- E. by apply Hmem.
Qed.

(** The best rows of a page before they are ordered. *)
Lemma pipeline_best_rows to_timedelta S page best df :
  SinglePerson.fetch_and_process_results to_timedelta S page = Ok (best, df) ->
  exists rows best0,
    page = Table rows
    /\ length df = length rows
    /\ Forall (fun r => normalized_distance_of r ∈ categories) df
    /\ SinglePerson.best_rows df = Ok best0
    /\ best = SinglePerson.ordered S best0
    /\ NoDup (map normalized_distance_of best0)
    /\ Forall (fun b => in_order (normalized_distance_of b)
                        /\ exists r, r ∈ df /\ b = note r) best0
    /\ (forall r, r ∈ df -> normalized_distance_of r <> PNaN ->
          exists b, b ∈ best0 /\ normalized_distance_of b = normalized_distance_of r).
Proof.
  intros (rows & best0 & -> & Hdf & Hbest & ->)%fetch_and_process_results_inv.
  exists rows, best0.
  assert (Hlab := single_data_frame_labels _ _ _ _ Hdf).
  assert (Hcat := single_data_frame_categories _ _ _ _ Hdf).
  assert (Hnd : NoDup (map label df)) by (rewrite Hlab; apply NoDup_seq).
  split; [done|]. split.
  { rewrite <- (length_map label df), Hlab. apply length_seq. }
  split; [done|]. split; [done|]. split; [done|].
  split; [by apply (best_rows_properties df best0)|].
  apply best_rows_spec in Hbest as (rows0 & -> & Hsel); [|done].
  rewrite Forall_forall in Hcat. split.
  - apply Forall_forall. intros b (r & -> & Hr)%list_elem_of_fmap.
    apply list_elem_of_lookup in Hr as [j Hj].
    destruct (Forall2_lookup_r _ _ _ _ _ Hsel Hj) as (k & _ & Hin & Hk & _).
    rewrite note_category. split; [|eauto].
    apply category_known; [by apply Hcat|]. by rewrite Hk.
  - intros r Hin Hna.
    assert (Hord : in_order (normalized_distance_of r))
      by by apply category_known; [apply Hcat|].
    assert (Hk : exists k, normalized_distance_of r = PStr k).
    { unfold in_order in Hord. apply list_elem_of_fmap in Hord as (k & -> & _). eauto. }
    destruct Hk as [k Hk].
    assert (Hkey : k ∈ SinglePerson.group_keys (List.filter SinglePerson.for_best df)).
    { apply elem_of_group_keys. exists r. split; [|done].
      apply elem_of_filter_bool. split; [done|]. by apply in_order_for_best. }
    apply list_elem_of_lookup in Hkey as [j Hj].
    destruct (Forall2_lookup_l _ _ _ _ _ Hsel Hj) as (r0 & Hj0 & _ & Hk0 & _).
    exists (note r0). split.
    + apply list_elem_of_fmap. exists r0. split; [done|].
      apply list_elem_of_lookup. eauto.
    + rewrite note_category. congruence.
Qed.

(** X10: for a page [fetch_and_process_results] returns a frame with one
    row for each row of the page, and best rows that are copies, with the
    note, of rows of that frame in one of the five categories; every
    category that occurs in the frame has its best row. *)
Theorem X10_every_category_has_its_best
  (to_timedelta : pyval -> timedelta) (S : sorter) (page : response)
  (best df : list frame_row) :
  SinglePerson.fetch_and_process_results to_timedelta S page = Ok (best, df) ->
  (exists rows, page = Table rows /\ length df = length rows)
  /\ (forall b, b ∈ best ->
        in_order (normalized_distance_of b) /\ exists r, r ∈ df /\ b = note r)
  /\ (forall r, r ∈ df -> normalized_distance_of r <> PNaN ->
        exists b, b ∈ best /\ normalized_distance_of b = normalized_distance_of r).
Proof.
  intros (rows & best0 & Hpage & Hlen & _ & _ & -> & _ & Hrows & Hall)%pipeline_best_rows.
  split; [eauto|]. unfold SinglePerson.ordered. split.
  - intros b Hb. rewrite sort_values_perm in Hb.
    rewrite Forall_forall in Hrows. by apply Hrows.
  - intros r Hin Hna. destruct (Hall r Hin Hna) as (b & Hb & Hcat).
    exists b. by rewrite sort_values_perm.
Qed.

Lemma X10_every_category_has_its_best_witness :
  exists best df,
    SinglePerson.fetch_and_process_results clock merge_sorter season_page
      = Ok (best, df)
    /\ length best = 3%nat /\ length df = 5%nat
    /\ forall r, r ∈ df -> normalized_distance_of r <> PNaN ->
         exists b, b ∈ best /\ normalized_distance_of b = normalized_distance_of r.
Proof.
  destruct (SinglePerson.fetch_and_process_results clock merge_sorter season_page)
    as [[best df]|] eqn:E; [|vm_compute in E; discriminate E].
  exists best, df. split; [done|].
  destruct (X10_every_category_has_its_best clock merge_sorter season_page best df E)
    as (_ & _ & H).
  vm_compute in E. injection E as <- <-. by repeat split.
Defined.

Lemma StronglySorted_strict {A B} (P : A -> Prop) (f : A -> B)
  (R R' : relation A) l :
  (forall x y, P x -> P y -> R x y -> f x <> f y -> R' x y) ->
  Forall P l -> NoDup (map f l) -> StronglySorted R l -> StronglySorted R' l.
Proof.
  intros Himp HP Hnd Hs. induction Hs as [|x l _ IH Hall]; [constructor|].
  cbn [map] in Hnd. apply NoDup_cons in Hnd as [Hx Hnd].
  apply Forall_cons in HP as [Px HP].
  constructor; [by apply IH|].
  rewrite Forall_forall in Hall, HP. apply Forall_forall. intros y Hy.
  apply Himp; [done | by apply HP | by apply Hall |]. intros E. apply Hx. rewrite E.
  apply list_elem_of_In, in_map. by apply list_elem_of_In.
Qed.

Lemma ordered_sorted (S : sorter) best :
  StronglySorted order_le (SinglePerson.ordered S best).
Proof.
  unfold SinglePerson.ordered.
  eapply StronglySorted_impl; [|apply sort_values_sorted].
  intros x y. unfold by_key, order_le. cbn. lia.
Qed.

Lemma ordered_strict (S : sorter) best :
  NoDup (map normalized_distance_of best) ->
  Forall (fun b => in_order (normalized_distance_of b)) best ->
  StronglySorted order_lt (SinglePerson.ordered S best).
Proof.
  intros Hnd Hord.
  apply (StronglySorted_strict (fun b => in_order (normalized_distance_of b))
           normalized_distance_of order_le).
  - unfold order_le, order_lt. intros x y Hx Hy Hle Hne.
    destruct (decide (SinglePerson.order_key (normalized_distance_of x)
                      = SinglePerson.order_key (normalized_distance_of y)))
      as [E|]; [|lia].
    by apply order_key_inj in E.
  - unfold SinglePerson.ordered. by rewrite sort_values_perm.
  - unfold SinglePerson.ordered. by rewrite sort_values_perm.
  - apply ordered_sorted.
Qed.

(** X11: what [fetch_and_process_results] returns does not depend on the
    sorting algorithm, and its best rows come in strictly increasing
    priority: 42K before 21K before 15K before 10K before 5K, none
    twice. *)
Theorem X11_order_is_determined
  (to_timedelta : pyval -> timedelta) (S1 S2 : sorter) (page : response) :
  SinglePerson.fetch_and_process_results to_timedelta S1 page
  = SinglePerson.fetch_and_process_results to_timedelta S2 page
  /\ (forall best df,
        SinglePerson.fetch_and_process_results to_timedelta S1 page
          = Ok (best, df) ->
        StronglySorted order_lt best).
Proof.
  assert (Hstrict : forall S best df,
            SinglePerson.fetch_and_process_results to_timedelta S page
              = Ok (best, df) ->
            exists best0, best = SinglePerson.ordered S best0
              /\ SinglePerson.best_rows df = Ok best0
              /\ forall S', StronglySorted order_lt (SinglePerson.ordered S' best0)).
  { intros S best df
      (rows & best0 & _ & _ & _ & Hb & -> & Hnd & Hrows & _)%pipeline_best_rows.
    exists best0. split; [done|]. split; [done|]. intros S'.
    apply ordered_strict; [done|].
    eapply Forall_impl; [exact Hrows|]. by intros b [? _]. }
  split.
  - destruct (SinglePerson.fetch_and_process_results to_timedelta S1 page)
      as [[best df]|e] eqn:E1.
    + destruct (Hstrict _ _ _ E1) as (best0 & -> & Hb & Hs).
      destruct (fetch_and_process_results_inv _ _ _ _ _ E1)
        as (rows & best0' & -> & Hdf & Hb' & _).
      destruct rows as [|row rows]; [done|].
      unfold SinglePerson.fetch_and_process_results. rewrite Hdf. cbn.
      rewrite Hb. cbn.
      do 2 f_equal. apply (StronglySorted_unique_strong order_lt); try apply Hs.
      * unfold order_lt. intros; lia.
      * unfold SinglePerson.ordered. by rewrite !sort_values_perm.
    + unfold SinglePerson.fetch_and_process_results in *.
      destruct page as [| | |rows]; try done. destruct rows as [|row rows]; [done|].
      destruct (SinglePerson.data_frame to_timedelta 0 (row :: rows)) as [df|];
        [|done].
      cbn in *. by destruct (SinglePerson.best_rows df).
  - intros best df E. destruct (Hstrict _ _ _ E) as (best0 & -> & _ & Hs). apply Hs.
Qed.

Lemma X11_order_is_determined_witness :
  StronglySorted order_lt
    (match SinglePerson.fetch_and_process_results clock merge_sorter season_page with
     | Ok (best, _) => best
     | Raise _ => []
     end).
Proof.
  destruct (SinglePerson.fetch_and_process_results clock merge_sorter season_page)
    as [[best df]|e] eqn:E.
  - apply (proj2 (X11_order_is_determined clock merge_sorter merge_sorter
                    season_page) best df E).
  - constructor.
Defined.

(** ** More on the aggregation *)

Lemma class_data_frame_timed to_timedelta rows : forall i df,
  BestResults.data_frame to_timedelta i rows = Ok df ->
  Forall (fun r => exists text,
            cell r !! He.col_best_text = Some (PStr text)
            /\ race_time r = to_timedelta (PStr text)) df.
Proof.
  induction rows as [|row rows IH]; intros i df; cbn.
  - intros [= <-]. constructor.
  - unfold BestResults.derive. destruct (row !! He.col_category); [|done]. cbn.
    destruct (BestResults.data_frame to_timedelta (Datatypes.S i) rows)
      as [rs|] eqn:Hrs; [|done].
    cbn. intros [= <-]. constructor; [|by eapply IH].
    eexists. cbn. by rewrite lookup_insert_eq.
Qed.


Lemma fetch_best_result_row to_timedelta fetch first_name last_name category b :
  BestResults.fetch_best_result to_timedelta fetch first_name last_name category
    = Ok (Some b) ->
  aggregate_row to_timedelta [(first_name, last_name)] category b.
Proof.
  intros (rows & df & _ & Hdf & Hb)%fetch_best_result_inv.
  assert (Hnd : NoDup (map label df)).
  { rewrite (class_data_frame_labels _ _ _ _ Hdf). apply NoDup_seq. }
  apply best_in_category_spec in Hb as (r & Hin & -> & Hr & (t & Ht & _));
    [|done].
  pose proof (class_data_frame_timed _ _ _ _ Hdf) as Htimed.
  rewrite Forall_forall in Htimed.
  destruct (Htimed r Hin) as (text & Htext & Htime).
  split; [apply note_marked|]. split; [by rewrite named_category|].
  unfold note, set_cell. cbn [cell race_time label].
  split; [by rewrite Ht|]. split; [|exists first_name, last_name; split; [|split]].
  - exists text. by rewrite !lookup_insert_ne.
  - by apply list_elem_of_singleton.
  - by rewrite lookup_insert_ne, lookup_insert_ne, lookup_insert_eq.
  - by rewrite lookup_insert_ne, lookup_insert_eq.
Qed.

Lemma aggregate_row_mono to_timedelta names1 names2 category r :
  (forall n, n ∈ names1 -> n ∈ names2) ->
  aggregate_row to_timedelta names1 category r ->
  aggregate_row to_timedelta names2 category r.
Proof.
  intros Hsub (Hm & Hc & Ht & Htext & f & l & Hin & Hf & Hl).
  repeat split; try done. exists f, l. auto.
Qed.

Lemma aggregate_row_label to_timedelta names category i r :
  aggregate_row to_timedelta names category r ->
  aggregate_row to_timedelta names category (set_label i r).
Proof. by destruct r. Qed.

(** The loop of [best_results_for_category] is the lookups in turn, and
    then the rows that were found. *)
Lemma collect_mapM to_timedelta fetch names_list category :
  BestResults.collect to_timedelta fetch names_list category
  = mapM (fun n => BestResults.fetch_best_result to_timedelta fetch
                     n.1 n.2 category) names_list
    ≫= fun bs : list (option frame_row) => Ok (omap id bs).
Proof.
  induction names_list as [|[f l] names IH]; [done|].
  cbn [BestResults.collect mapM fst snd]. rewrite IH.
  destruct (BestResults.fetch_best_result _ _ f l category) as [b|]; [|done].
  cbn. destruct (mapM _ names) as [bs|]; [|done]. cbn. by destruct b.
Qed.

Lemma collect_rows to_timedelta fetch names_list category collected :
  BestResults.collect to_timedelta fetch names_list category = Ok collected ->
  Forall (aggregate_row to_timedelta names_list category) collected
  /\ (length collected <= length names_list)%nat.
Proof.
  revert collected. induction names_list as [|[f l] names IH]; intros collected.
  - intros [= <-]. split; [constructor|done].
  - cbn [BestResults.collect].
    destruct (BestResults.fetch_best_result _ _ f l category) as [b|] eqn:Hb;
      [|done].
    cbn. destruct (BestResults.collect _ _ names category) as [rest|]; [|done].
    cbn. intros [= <-]. destruct (IH rest eq_refl) as [Hrest Hlen].
    assert (Hrest' : Forall (aggregate_row to_timedelta ((f, l) :: names) category)
                       rest).
    { eapply Forall_impl; [exact Hrest|]. intros r.
      apply aggregate_row_mono. intros n Hn. by right. }
    destruct b as [b|]; cbn [length].
    + split; [|lia]. constructor; [|done].
      apply fetch_best_result_row in Hb.
      revert Hb. apply aggregate_row_mono.
      intros n ->%list_elem_of_singleton. by left.
    + split; [done|lia].
Qed.

Lemma set_race_time_same r : set_race_time (race_time r) r = r.
Proof. by destruct r. Qed.

(** The second parse of the chosen time text gives the duration the row
    already holds. *)
Lemma reparse_same to_timedelta names category l :
  Forall (aggregate_row to_timedelta names category) l ->
  mapM (BestResults.reparse to_timedelta) l = Ok l.
Proof.
  induction 1 as [|r l (_ & _ & _ & (text & Htext & Htime) & _) _ IH]; [done|].
  assert (Hr : BestResults.reparse to_timedelta r = Ok r).
  { unfold BestResults.reparse. rewrite Htext, <- Htime.
    by rewrite set_race_time_same. }
  cbn [mapM]. rewrite Hr, IH. done.
Qed.

Lemma reset_index_rows to_timedelta names category l :
  Forall (aggregate_row to_timedelta names category) l ->
  Forall (aggregate_row to_timedelta names category) (BestResults.reset_index l).
Proof.
  intros H. unfold BestResults.reset_index.
  rewrite Forall_forall in *. intros r Hr.
  apply list_elem_of_lookup in Hr as [i Hi].
  rewrite list_lookup_imap in Hi.
  destruct (l !! i) as [r0|] eqn:Hr0; [|done]. injection Hi as <-.
  apply aggregate_row_label, H. by eapply list_elem_of_lookup_2.
Qed.

Lemma reset_index_labels l :
  map label (BestResults.reset_index l) = seq 0 (length l).
Proof.
  unfold BestResults.reset_index.
  assert (H : forall k, map label (imap (fun i => set_label (k + i)) l)
                        = seq k (length l)).
  { induction l as [|r l IH]; intros k; [done|].
    cbn. rewrite Nat.add_0_r. f_equal.
    rewrite <- (IH (Datatypes.S k)). f_equal. apply imap_ext.
    intros i x _. cbn. f_equal. lia. }
  apply (H 0%nat).
Qed.

Lemma imap_map {A B} (g : A -> B) (f : nat -> A -> A) l :
  (forall i r, g (f i r) = g r) -> map g (imap f l) = map g l.
Proof.
  revert f. induction l as [|r l IH]; intros f Hf; [done|].
  cbn. rewrite Hf. f_equal. apply IH. intros i r'. apply Hf.
Qed.

Lemma reset_index_unlabelled l :
  map (set_label 0) (BestResults.reset_index l) = map (set_label 0) l.
Proof. by apply imap_map. Qed.

Lemma reset_index_times l :
  map race_time (BestResults.reset_index l) = map race_time l.
Proof. by apply imap_map. Qed.

(** What [best_results_for_category] returns, from what the loop
    collected. *)
Lemma best_results_for_category_inv to_timedelta fetch S names_list category :
  BestResults.best_results_for_category to_timedelta fetch S names_list category
  = match BestResults.collect to_timedelta fetch names_list category with
    | Ok [] => Ok None
    | Ok collected =>
        Ok (Some (sort_values S race_time (BestResults.reset_index collected)))
    | Raise e => Raise e
    end.
Proof.
  unfold BestResults.best_results_for_category.
  destruct (BestResults.collect _ _ names_list category) as [collected|e] eqn:Hc;
    [|done].
  cbn. destruct collected as [|b bs] eqn:E; [done|]. rewrite <- E in *.
  apply collect_rows in Hc as [Hrows _].
  by rewrite (reparse_same to_timedelta names_list category _
                (reset_index_rows _ _ _ _ Hrows)).
Qed.

(** X12: every row of the frame [best_results_for_category] returns
    carries the note, is in the category asked for, bears the names of a
    participant of the list and holds a duration, never [NaT], which is
    the one its chosen time text parses to; the frame is not empty, has at
    most one row for each participant, and is the collected rows with
    their new labels 0, 1, ...: the second parse of the time text changes
    nothing. *)
Theorem X12_aggregated_rows
  (to_timedelta : pyval -> timedelta) (fetch : pystr -> pystr -> response)
  (S : sorter) (names_list : list (pystr * pystr)) (category : pystr)
  (out : list frame_row) :
  BestResults.best_results_for_category to_timedelta fetch S names_list category
    = Ok (Some out) ->
  out <> []
  /\ (length out <= length names_list)%nat
  /\ Forall (aggregate_row to_timedelta names_list category) out
  /\ Permutation (map label out) (seq 0 (length out))
  /\ exists collected,
       BestResults.collect to_timedelta fetch names_list category = Ok collected
       /\ Permutation out (BestResults.reset_index collected).
Proof.
  rewrite best_results_for_category_inv.
  destruct (BestResults.collect _ _ names_list category) as [collected|e] eqn:Hc;
    [|done].
  destruct collected as [|b bs] eqn:E; [done|]. rewrite <- E in *.
  intros [= <-].
  pose proof (sort_values_perm S _ race_time (BestResults.reset_index collected))
    as Hperm.
  apply collect_rows in Hc as [Hrows Hlen].
  assert (Hl : length (sort_values S race_time (BestResults.reset_index collected))
               = length collected).
  { rewrite (Permutation_length Hperm). unfold BestResults.reset_index.
    apply length_imap. }
  split; [|split; [|split; [|split]]].
  - intros Hnil. rewrite Hnil, E in Hl. done.
  - by rewrite Hl.
  - rewrite Hperm. by apply reset_index_rows.
  - rewrite Hl, <- reset_index_labels. by apply Permutation_map.
  - by exists collected.
Qed.

Lemma X12_aggregated_rows_witness :
  Forall (aggregate_row clock abc (py "10K"))
    [ set_label 1 (fetched "C" "10000" "1:25:00" "1:26:00" "1:25:00" 5100);
      set_label 0 (fetched "A" "10000" "1:30:00" "1:31:00" "1:30:00" 5400) ].
Proof.
  apply (X12_aggregated_rows clock abc_fetch merge_sorter abc (py "10K")).
  vm_compute. reflexivity.
Defined.

(** ** Exceptions of the aggregation *)



Lemma mapM_raises {A B} (f : A -> result B) l e :
  mapM f l = Raise e <->
  exists before a after,
    l = before ++ a :: after
    /\ Forall (fun x => exists b, f x = Ok b) before
    /\ f a = Raise e.
Proof.
  revert e. induction l as [|x l IH]; intros e; cbn [mapM].
  - split; [done|]. intros (before & a & after & H & _). by destruct before.
  - destruct (f x) as [b|e'] eqn:Hx; cbn.
    + destruct (mapM f l) as [bs|e'] eqn:Hl; cbn.
      * split; [done|]. intros (before & a & after & H & Hb & Ha).
        destruct before as [|y before]; injection H as -> ->; [congruence|].
        apply Forall_cons in Hb as [_ Hb].
        assert (Hr : Ok bs = Raise e :> result (list B)); [|done].
        apply IH. by exists before, a, after.
      * split.
        -- intros [= <-].
           destruct (proj1 (IH e') eq_refl) as (before & a & after & -> & Hb & Ha).
           exists (x :: before), a, after. split; [done|]. split; [|done].
           constructor; eauto.
        -- intros (before & a & after & H & Hb & Ha).
           destruct before as [|y before]; injection H as -> ->; [congruence|].
           apply Forall_cons in Hb as [_ Hb].
           apply IH. by exists before, a, after.
    + split.
      * intros [= <-]. by exists [], x, l.
      * intros (before & a & after & H & Hb & Ha).
        destruct before as [|y before]; injection H as -> ->; [congruence|].
        apply Forall_cons in Hb as [[b Hb'] _]. congruence.
Qed.



(** ** The order of the participants *)

Lemma mapM_Permutation {A B} (f : A -> result B) l l' :
  Permutation l l' ->
  forall bs, mapM f l = Ok bs ->
  exists bs', mapM f l' = Ok bs' /\ Permutation bs bs'.
Proof.
  induction 1 as [|x l l' _ IH|x y l|l l' l'' _ IH1 _ IH2]; intros bs; cbn [mapM].
  - intros [= <-]. by exists [].
  - destruct (f x) as [b|]; [|done]. cbn.
    destruct (mapM f l) as [bs0|]; [|done]. cbn. intros [= <-].
    destruct (IH bs0 eq_refl) as (bs' & -> & Hp). cbn. exists (b :: bs').
    split; [done|]. by constructor.
  - destruct (f y) as [b|]; [|done]. cbn.
    destruct (f x) as [c|]; [|done]. cbn.
    destruct (mapM f l) as [bs0|]; [|done]. cbn. intros [= <-].
    exists (c :: b :: bs0). split; [done|]. apply perm_swap.
  - intros H1. destruct (IH1 bs H1) as (bs' & H2 & Hp).
    destruct (IH2 bs' H2) as (bs'' & H3 & Hp'). exists bs''.
    split; [done|]. by etransitivity.
Qed.

Lemma collect_Permutation to_timedelta fetch names1 names2 category :
  Permutation names1 names2 ->
  match BestResults.collect to_timedelta fetch names1 category,
        BestResults.collect to_timedelta fetch names2 category with
  | Ok c1, Ok c2 => Permutation c1 c2
  | Raise _, Raise _ => True
  | _, _ => False
  end.
Proof.
  intros Hp. rewrite !collect_mapM.
  set (f := fun n : pystr * pystr =>
              BestResults.fetch_best_result to_timedelta fetch n.1 n.2 category).
  destruct (mapM f names1) as [bs1|e1] eqn:H1; cbn.
  - destruct (mapM_Permutation f _ _ Hp bs1 H1) as (bs2 & -> & Hbs). cbn.
    by apply omap_Permutation.
  - destruct (mapM f names2) as [bs2|e2] eqn:H2; cbn; [|done].
    symmetry in Hp.
    destruct (mapM_Permutation f _ _ Hp bs2 H2) as (bs1 & H1' & _). congruence.
Qed.

Lemma sorted_times (S : sorter) (l : list frame_row) :
  StronglySorted td_le (map race_time (sort_values S race_time l)).
Proof.
  apply (StronglySorted_fmap race_time (by_key race_time) td_le).
  - by intros x y.
  - apply sort_values_sorted.
Qed.

(** X14: the frame [best_results_for_category] returns does not depend on
    the order of the participants in the names list, nor on the sorting
    algorithm, beyond the order of rows of equal duration and the index
    labels: for two orders of one list the function returns no frame for
    both, raises for both, or returns two frames with the same rows up to
    the labels and the same column of durations. *)
Theorem X14_order_of_participants
  (to_timedelta : pyval -> timedelta) (fetch : pystr -> pystr -> response)
  (S1 S2 : sorter) (names1 names2 : list (pystr * pystr)) (category : pystr) :
  Permutation names1 names2 ->
  same_standings
    (BestResults.best_results_for_category to_timedelta fetch S1 names1 category)
    (BestResults.best_results_for_category to_timedelta fetch S2 names2 category).
Proof.
  intros Hp. rewrite !best_results_for_category_inv.
  pose proof (collect_Permutation to_timedelta fetch _ _ category Hp) as Hc.
  destruct (BestResults.collect _ _ names1 category) as [c1|e1],
           (BestResults.collect _ _ names2 category) as [c2|e2]; try done.
  destruct c1 as [|b1 c1'] eqn:E1.
  { apply Permutation_nil_l in Hc. by subst c2. }
  destruct c2 as [|b2 c2'] eqn:E2.
  { by apply Permutation_nil_r in Hc. }
  rewrite <- E1, <- E2 in *. cbn.
  assert (Hrows : Permutation
            (map (set_label 0)
               (sort_values S1 race_time (BestResults.reset_index c1)))
            (map (set_label 0)
               (sort_values S2 race_time (BestResults.reset_index c2)))).
  { rewrite !sort_values_perm, !reset_index_unlabelled.
    by apply Permutation_map. }
  split; [done|].
  apply (@StronglySorted_unique _ td_le td_le_antisym);
    [apply sorted_times..|].
  rewrite !sort_values_perm, !reset_index_times. by apply Permutation_map.
Qed.

Lemma X14_order_of_participants_witness :
  same_standings
    (BestResults.best_results_for_category clock abc_fetch merge_sorter abc
       (py "10K"))
    (BestResults.best_results_for_category clock abc_fetch merge_sorter
       (rev abc) (py "10K")).
Proof.
  apply (X14_order_of_participants clock abc_fetch merge_sorter merge_sorter
           abc (rev abc) (py "10K")).
  apply Permutation_rev.
Defined.
(** ** The participant filters *)

Import Participants.

(** The row as the filter holds it, once [normalize_year] has gone over
    the column of years. *)
Lemma mask_rows_map {A B} (h : A -> B) (q : B -> bool) (l : list A) :
  mask_rows (map q (map h l)) (map h l)
  = map h (List.filter (fun a => q (h a)) l).
Proof.
  induction l as [|a l IH]; [done|]. cbn. destruct (q (h a)); cbn; by rewrite IH.
Qed.

Lemma filter_sublist {A} (p : A -> bool) (l : list A) :
  sublist (List.filter p l) l.
Proof.
  induction l as [|a l IH]; cbn; [constructor|].
  destruct (p a); by constructor.
Qed.

Lemma zip_with_map_l {A B C} (f : B -> A -> C) (g : A -> B) (l : list A) :
  zip_with f (map g l) l = map (fun a => f (g a) a) l.
Proof. induction l as [|a l IH]; [done|]. cbn. by rewrite IH. Qed.

Lemma normalize_years rows years :
  mapM BestResults.normalize_year (map (cell_of col_year) rows) = Ok years ->
  years = map born rows
  /\ Forall (fun row => exists y,
               BestResults.normalize_year (cell_of col_year row) = Ok y) rows.
Proof.
  revert years. induction rows as [|row rows IH]; intros years; cbn [map mapM].
  - intros [= <-]. split; [done|constructor].
  - destruct (BestResults.normalize_year (cell_of col_year row)) as [y|] eqn:Hy;
      [|done].
    cbn. destruct (mapM _ (map (cell_of col_year) rows)) as [ys|]; [|done].
    cbn. intros [= <-]. destruct (IH ys eq_refl) as [-> Hall].
    split; [|constructor; eauto].
    assert (born row = y) as -> by (unfold born; by rewrite Hy). done.
Qed.

Lemma normalize_years_returns rows :
  Forall (fun row => exists y,
            BestResults.normalize_year (cell_of col_year row) = Ok y) rows ->
  mapM BestResults.normalize_year (map (cell_of col_year) rows)
  = Ok (map born rows).
Proof.
  induction 1 as [|row rows [y Hy] _ IH]; [done|].
  cbn [map mapM]. rewrite Hy, IH. cbn.
  assert (born row = y) as -> by (unfold born; by rewrite Hy). done.
Qed.

Lemma cell_of_with_year_year row :
  cell_of col_year (with_year row) = year_cell (born row).
Proof. unfold cell_of, with_year. by rewrite lookup_insert_eq. Qed.

Lemma cell_of_with_year col row :
  col <> col_year -> cell_of col (with_year row) = cell_of col row.
Proof. intros H. unfold cell_of, with_year. by rewrite lookup_insert_ne. Qed.

Lemma setitem_years table :
  col_year ∈ columns table ->
  setitem col_year (map year_cell (map born (entries table))) table
  = Roster (columns table) (map with_year (entries table)).
Proof.
  intros Hc. unfold setitem. rewrite bool_decide_eq_true_2 by done. f_equal.
  rewrite map_map. apply zip_with_map_l.
Qed.

Lemma select_with_year cols col (q : pyval -> bool) l :
  select (map q (map (cell_of col) (map with_year l)))
    (Roster cols (map with_year l))
  = Roster cols
      (map with_year (List.filter (fun row => q (cell_of col (with_year row))) l)).
Proof.
  unfold select. cbn [columns entries]. f_equal.
  rewrite (map_map with_year (cell_of col)), (map_map _ q).
  rewrite <- (map_map with_year (fun b => q (cell_of col b))).
  apply (mask_rows_map with_year (fun b => q (cell_of col b))).
Qed.

Lemma names_with_year cols l :
  names (Roster cols (map with_year l)) = names_of cols l.
Proof.
  unfold names, names_of. cbn [columns entries].
  destruct (_ && _); [|done]. f_equal. rewrite map_map. apply map_ext.
  intros row. unfold name_of. by rewrite !cell_of_with_year.
Qed.

Lemma filter_true {A} (l : list A) : List.filter (fun _ => true) l = l.
Proof. induction l as [|a l IH]; [done|]. cbn. by rewrite IH. Qed.

(** The stages of the filter on the table after the years are
    normalized. *)
Lemma min_stage cols min_year l :
  col_year ∈ cols ->
  match min_year with
  | Some m =>
      years ← getitem col_year (Roster cols (map with_year l));
      Returned (select (map (ge_year m) years) (Roster cols (map with_year l)))
  | None => Returned (Roster cols (map with_year l))
  end
  = Returned (Roster cols (map with_year (List.filter (min_test min_year) l))).
Proof.
  intros Hc. destruct min_year as [m|]; cbn [min_test].
  - unfold getitem. cbn [columns entries]. rewrite bool_decide_eq_true_2 by done.
    cbn [mbind attempt_bind]. rewrite select_with_year. do 3 f_equal.
    apply filter_ext. intros row. by rewrite cell_of_with_year_year.
  - unfold min_test. by rewrite filter_true.
Qed.

Lemma max_stage cols max_year l :
  col_year ∈ cols ->
  match max_year with
  | Some m =>
      years ← getitem col_year (Roster cols (map with_year l));
      Returned (select (map (le_year m) years) (Roster cols (map with_year l)))
  | None => Returned (Roster cols (map with_year l))
  end
  = Returned (Roster cols (map with_year (List.filter (max_test max_year) l))).
Proof.
  intros Hc. destruct max_year as [m|]; cbn [max_test].
  - unfold getitem. cbn [columns entries]. rewrite bool_decide_eq_true_2 by done.
    cbn [mbind attempt_bind]. rewrite select_with_year. do 3 f_equal.
    apply filter_ext. intros row. by rewrite cell_of_with_year_year.
  - unfold max_test. by rewrite filter_true.
Qed.

Lemma gender_stage cols gender l :
  match gender with
  | Some g =>
      genders ← getitem col_gender (Roster cols (map with_year l));
      Returned (select (map (fun v => bool_decide (v = PStr g)) genders)
                  (Roster cols (map with_year l)))
  | None => Returned (Roster cols (map with_year l))
  end
  = if bool_decide (is_Some gender -> col_gender ∈ cols)
    then Returned (Roster cols (map with_year (List.filter (gender_test gender) l)))
    else Failed (Escaped KeyError).
Proof.
  destruct gender as [g|]; cbn [gender_test].
  - unfold getitem. cbn [columns entries].
    destruct (decide (col_gender ∈ cols)) as [Hc|Hc].
    + rewrite !bool_decide_eq_true_2 by done.
      cbn [mbind attempt_bind]. rewrite select_with_year. do 3 f_equal.
      apply filter_ext. intros row. by rewrite cell_of_with_year.
    + rewrite bool_decide_eq_false_2 by done.
      rewrite bool_decide_eq_false_2; [done|]. intros H. apply Hc, H. by eexists.
  - rewrite bool_decide_eq_true_2 by (by intros [? ?]).
    unfold gender_test. by rewrite filter_true.
Qed.

Lemma existsb_map_id {A} (f : A -> bool) (l : list A) :
  existsb (fun b => b) (map f l) = existsb f l.
Proof. induction l as [|a l IH]; [done|]. cbn. by rewrite IH. Qed.

Lemma keyword_stage search cols race_keyword l :
  match race_keyword with
  | Some keyword =>
      races ← getitem He.col_category (Roster cols (map with_year l));
      mask ← str_contains search keyword races;
      let mask :=
        if negb (existsb (fun b => b) mask) && in_list keyword canonical
        then normalized_equals keyword races
        else mask in
      Returned (select mask (Roster cols (map with_year l)))
  | None => Returned (Roster cols (map with_year l))
  end
  = match race_keyword with
    | Some keyword =>
        if bool_decide (He.col_category ∈ cols) then
          match search keyword with
          | Some found =>
              Returned (Roster cols (map with_year (keyword_rows found keyword l)))
          | None => Failed PatternError
          end
        else Failed (Escaped KeyError)
    | None => Returned (Roster cols (map with_year l))
    end.
Proof.
  destruct race_keyword as [keyword|]; [|done].
  unfold getitem. cbn [columns entries]. case_bool_decide; [|done].
  cbn [mbind attempt_bind]. unfold str_contains.
  destruct (search keyword) as [found|]; [|done].
  cbn [mbind attempt_bind]. cbv zeta. f_equal.
  rewrite existsb_map_id.
  assert (Hex : existsb (fun v => found (str v))
                  (map (cell_of He.col_category) (map with_year l))
                = existsb (fun row => found (race_text row)) l).
  { rewrite <- (existsb_map_id (fun v => found (str v))).
    rewrite <- (existsb_map_id (fun row => found (race_text row))).
    rewrite !map_map. f_equal. apply map_ext.
    intros row. unfold race_text. by rewrite cell_of_with_year. }
  rewrite Hex. unfold keyword_rows.
  destruct (negb _ && _).
  - unfold normalized_equals.
    rewrite (select_with_year cols He.col_category
               (fun x => bool_decide
                           (str (BestResults.normalize_distance (PStr (str x)))
                            = keyword))).
    do 2 f_equal. apply filter_ext. intros row.
    unfold race_normalizes_to, race_text. by rewrite cell_of_with_year.
  - rewrite (select_with_year cols He.col_category (fun v => found (str v))).
    do 2 f_equal. apply filter_ext. intros row.
    unfold race_text. by rewrite cell_of_with_year.
Qed.

(** The filter read on the rows of the table as scraped. *)
Lemma get_filtered_names_3plus_realtiming_closed search min_year max_year gender
  race_keyword table :
  get_filtered_names_3plus_realtiming search min_year max_year gender
    race_keyword table
  = if bool_decide (col_year ∈ columns table) then
      match mapM BestResults.normalize_year
              (map (cell_of col_year) (entries table)) with
      | Raise e => Failed (Escaped e)
      | Ok _ =>
          if bool_decide (is_Some gender -> col_gender ∈ columns table) then
            match race_keyword with
            | Some keyword =>
                if bool_decide (He.col_category ∈ columns table) then
                  match search keyword with
                  | Some found =>
                      names_of (columns table)
                        (keyword_rows found keyword
                           (eligible min_year max_year gender (entries table)))
                  | None => Failed PatternError
                  end
                else Failed (Escaped KeyError)
            | None =>
                names_of (columns table)
                  (eligible min_year max_year gender (entries table))
            end
          else Failed (Escaped KeyError)
      end
    else Failed (Escaped KeyError).
Proof.
  unfold get_filtered_names_3plus_realtiming. cbv zeta.
  destruct (decide (col_year ∈ columns table)) as [Hc|Hc].
  2:{ rewrite (bool_decide_eq_false_2 (col_year ∈ columns table)) by done.
      assert (Hg : getitem col_year table = Failed (Escaped KeyError))
        by (unfold getitem; by rewrite bool_decide_eq_false_2).
      by rewrite Hg. }
  rewrite (bool_decide_eq_true_2 (col_year ∈ columns table)) by done.
  assert (Hg : getitem col_year table
               = Returned (map (cell_of col_year) (entries table)))
    by (unfold getitem; by rewrite bool_decide_eq_true_2).
  rewrite Hg. cbn [mbind attempt_bind].
  destruct (mapM _ (map (cell_of col_year) (entries table))) as [years|e] eqn:Hy;
    [|done].
  apply normalize_years in Hy as [-> _]. cbn [lift mbind attempt_bind].
  rewrite (setitem_years table Hc).
  rewrite (min_stage _ _ _ Hc). cbn [mbind attempt_bind].
  rewrite (max_stage _ _ _ Hc). cbn [mbind attempt_bind].
  rewrite gender_stage. fold (eligible min_year max_year gender (entries table)).
  case_bool_decide; [|done]. cbn [mbind attempt_bind].
  rewrite keyword_stage.
  destruct race_keyword as [keyword|]; cbn [mbind attempt_bind].
  - case_bool_decide; [|done]. destruct (search keyword) as [found|]; [|done].
    cbn [mbind attempt_bind]. apply names_with_year.
  - apply names_with_year.
Qed.

Lemma ge_year_born m row :
  ge_year m (year_cell (born row)) = true <->
  exists y, born row = Some y /\ (m <= y)%Z.
Proof.
  destruct (born row) as [y|]; cbn.
  - rewrite Z.leb_le. split; [eauto|]. by intros (? & [= <-] & ?).
  - split; [done|]. by intros (? & ? & _).
Qed.

Lemma le_year_born m row :
  le_year m (year_cell (born row)) = true <->
  exists y, born row = Some y /\ (y <= m)%Z.
Proof.
  destruct (born row) as [y|]; cbn.
  - rewrite Z.leb_le. split; [eauto|]. by intros (? & [= <-] & ?).
  - split; [done|]. by intros (? & ? & _).
Qed.

Lemma elem_of_eligible min_year max_year gender rows row :
  row ∈ eligible min_year max_year gender rows <->
  row ∈ rows /\ born_within min_year max_year row /\ of_gender gender row.
Proof.
  unfold eligible. rewrite !elem_of_filter_bool.
  unfold born_within, of_gender, min_test, max_test, gender_test.
  destruct min_year as [m1|], max_year as [m2|], gender as [g|];
    rewrite ?ge_year_born, ?le_year_born, ?bool_decide_eq_true;
    split;
    try (intros (((Hin & H1) & H2) & H3));
    try (intros (Hin & (H1 & H2) & H3));
    repeat split; try done;
    try (by intros ? [= <-]); try (by apply H1); try (by apply H2);
    try (by apply H3).
Qed.

Lemma elem_of_keyword_rows found keyword rows row :
  row ∈ keyword_rows found keyword rows <->
  row ∈ rows
  /\ (found (race_text row) = true
      \/ (keyword ∈ canonical /\ race_normalizes_to keyword row
          /\ forall row', row' ∈ rows -> found (race_text row') = false)).
Proof.
  unfold keyword_rows.
  destruct (existsb (fun row => found (race_text row)) rows) eqn:Hex; cbn [negb andb].
  - rewrite elem_of_filter_bool. split; [intros [? ?]; auto|].
    intros [Hin [H | (_ & _ & Hnone)]]; [done|].
    apply existsb_exists in Hex as (row' & Hin' & Hrow').
    rewrite (Hnone row') in Hrow'; [done|]. by apply list_elem_of_In.
  - assert (Hnone : forall row', row' ∈ rows -> found (race_text row') = false).
    { intros row' Hin'. destruct (found (race_text row')) eqn:Hf; [|done].
      assert (existsb (fun row => found (race_text row)) rows = true); [|congruence].
      apply existsb_exists. exists row'. split; [by apply list_elem_of_In|done]. }
    unfold in_list. case_bool_decide as Hk.
    + rewrite elem_of_filter_bool, bool_decide_eq_true. split.
      * intros [Hin Hn]. split; [done|]. right. done.
      * intros [Hin [H | (_ & Hn & _)]]; [|done].
        by rewrite (Hnone row Hin) in H.
    + rewrite elem_of_filter_bool. split; [intros [? ?]; auto|].
      intros [Hin [H | (Hk' & _)]]; done.
Qed.

Lemma names_of_returns cols rows out :
  names_of cols rows = Returned out <->
  He.col_first ∈ cols /\ He.col_last ∈ cols /\ out = map name_of rows.
Proof.
  unfold names_of.
  destruct (decide (He.col_first ∈ cols)), (decide (He.col_last ∈ cols));
    rewrite ?(bool_decide_eq_true_2 (He.col_first ∈ cols)),
            ?(bool_decide_eq_false_2 (He.col_first ∈ cols)),
            ?(bool_decide_eq_true_2 (He.col_last ∈ cols)),
            ?(bool_decide_eq_false_2 (He.col_last ∈ cols)) by done;
    cbn [andb]; split; try done; try (by intros (? & ? & _)).
  - by intros [= <-].
  - by intros (_ & _ & ->).
Qed.

(** X15: the names [get_filtered_names_3plus_realtiming] returns are the
    names of rows of the participants table, in the order of the table,
    and a row is among them exactly when it passes every test that is
    asked for: its year of birth is known and within the bounds given, it
    holds the gender given, and the keyword is found in its category text
    or, only when the keyword is one of the five categories and is found
    in no row that passes the other tests, its category text normalizes
    to the keyword. *)
Theorem X15_filter_selects
  (search : pystr -> option (pystr -> bool)) (min_year max_year : option Z)
  (gender race_keyword : option pystr) (table : Participants.roster)
  (names_list : list (pyval * pyval)) :
  Participants.get_filtered_names_3plus_realtiming search min_year max_year
    gender race_keyword table = Participants.Returned names_list ->
  exists kept,
    names_list = map name_of kept
    /\ sublist kept (Participants.entries table)
    /\ forall row,
         row ∈ kept <->
         row ∈ Participants.entries table
         /\ born_within min_year max_year row
         /\ of_gender gender row
         /\ forall keyword, race_keyword = Some keyword ->
              exists found,
                search keyword = Some found
                /\ (found (race_text row) = true
                    \/ (keyword ∈ Participants.canonical
                        /\ race_normalizes_to keyword row
                        /\ forall row',
                             row' ∈ Participants.entries table ->
                             born_within min_year max_year row' ->
                             of_gender gender row' ->
                             found (race_text row') = false)).
Proof.
  rewrite get_filtered_names_3plus_realtiming_closed.
  case_bool_decide; [|done].
  destruct (mapM _ _) as [years|]; [|done].
  case_bool_decide; [|done].
  set (rows := eligible min_year max_year gender (entries table)).
  assert (Hsub : sublist rows (entries table)).
  { unfold rows, eligible.
    etransitivity; [apply filter_sublist|].
    etransitivity; [apply filter_sublist|]. apply filter_sublist. }
  destruct race_keyword as [keyword|].
  - case_bool_decide; [|done].
    destruct (search keyword) as [found|] eqn:Hs; [|done].
    intros (_ & _ & ->)%names_of_returns.
    exists (keyword_rows found keyword rows). split; [done|]. split.
    { etransitivity; [|exact Hsub]. unfold keyword_rows.
      destruct (_ && _); apply filter_sublist. }
    intros row. rewrite elem_of_keyword_rows. unfold rows.
    rewrite elem_of_eligible. split.
    + intros ((Hin & Hb & Hg) & Hk). repeat split; try done; try apply Hb.
      intros ? [= <-]. exists found. split; [done|].
      destruct Hk as [Hk | (Hc & Hn & Hnone)]; [by left|]. right.
      repeat split; try done. intros row' Hin' Hb' Hg'.
      apply Hnone, elem_of_eligible. done.
    + intros (Hin & Hb & Hg & Hk). split; [done|].
      destruct (Hk keyword eq_refl) as (found' & Hs' & Hcase).
      rewrite Hs in Hs'. injection Hs' as <-.
      destruct Hcase as [Hf | (Hc & Hn & Hnone)]; [by left|]. right.
      repeat split; try done. intros row' (Hin' & Hb' & Hg')%elem_of_eligible.
      by apply Hnone.
  - intros (_ & _ & ->)%names_of_returns.
    exists rows. split; [done|]. split; [done|].
    intros row. unfold rows. rewrite elem_of_eligible. split.
    + intros (Hin & Hb & Hg). repeat split; try done; try apply Hb.
    + intros (Hin & Hb & Hg & _). done.
Qed.

Lemma X15_filter_selects_witness :
  exists kept,
    [ (PStr (py "Omer"), PStr (py "Cohen")) ] = map name_of kept
    /\ sublist kept (Participants.entries club).
Proof.
  destruct (X15_filter_selects literal_search (Some 1978%Z) None
              (Some (py "male")) (Some (py "10")) club
              [ (PStr (py "Omer"), PStr (py "Cohen")) ])
    as (kept & Hnames & Hsub & _).
  - vm_compute. reflexivity.
  - by exists kept.
Defined.

Lemma normalize_year_raises_kinds y e :
  BestResults.normalize_year y = Raise e -> e = IndexError \/ e = ValueError.
Proof.
  unfold BestResults.normalize_year. destruct (isna y); [done|].
  destruct y as [| | |z|s]; try done.
  destruct (contains _ s).
  - destruct (split 47 s !! 2%nat) as [part|]; [|intros [= <-]; by left].
    destruct (py_int part); [done|]. intros [= <-]. by right.
  - by destruct (py_int s).
Qed.

(** X16: [get_filtered_names_3plus_realtiming] returns exactly when the
    table has the year column, [normalize_year] returns on the year of
    birth of every row, the table has the gender column if a gender is
    given, the category column and a pattern that compiles if a keyword
    is given, and the two name columns. The bounds on the year play no
    part in this: the years are normalized before any test, so one row
    whose date of birth makes [normalize_year] raise makes the filter
    raise [IndexError] or [ValueError] whatever is asked for. *)
Theorem X16_filter_returns
  (search : pystr -> option (pystr -> bool)) (min_year max_year : option Z)
  (gender race_keyword : option pystr) (table : Participants.roster) :
  let returns :=
    exists names_list,
      Participants.get_filtered_names_3plus_realtiming search min_year max_year
        gender race_keyword table = Participants.Returned names_list in
  (returns <->
   Participants.col_year ∈ Participants.columns table
   /\ Forall (fun row => exists y,
                BestResults.normalize_year
                  (Participants.cell_of Participants.col_year row) = Ok y)
        (Participants.entries table)
   /\ (is_Some gender ->
       Participants.col_gender ∈ Participants.columns table)
   /\ (forall keyword, race_keyword = Some keyword ->
         He.col_category ∈ Participants.columns table
         /\ is_Some (search keyword))
   /\ He.col_first ∈ Participants.columns table
   /\ He.col_last ∈ Participants.columns table)
  /\ (Participants.col_year ∈ Participants.columns table ->
      forall row e,
        row ∈ Participants.entries table ->
        BestResults.normalize_year
          (Participants.cell_of Participants.col_year row) = Raise e ->
        Participants.get_filtered_names_3plus_realtiming search min_year
          max_year gender race_keyword table
        ∈ [ Participants.Failed (Participants.Escaped IndexError);
            Participants.Failed (Participants.Escaped ValueError) ]).
Proof.
  cbv zeta. rewrite get_filtered_names_3plus_realtiming_closed. split.
  - destruct (decide (col_year ∈ columns table)) as [Hc|Hc].
    2:{ rewrite (bool_decide_eq_false_2 _ Hc). split; [by intros [? ?]|].
        by intros (? & _). }
    rewrite (bool_decide_eq_true_2 _ Hc).
    destruct (mapM _ (map (cell_of col_year) (entries table))) as [years|e] eqn:Hy.
    2:{ split; [by intros [? ?]|]. intros (_ & Hall & _).
        rewrite (normalize_years_returns _ Hall) in Hy. done. }
    apply normalize_years in Hy as [_ Hall].
    destruct (decide (is_Some gender -> col_gender ∈ columns table)) as [Hg|Hg].
    2:{ rewrite (bool_decide_eq_false_2 _ Hg). split; [by intros [? ?]|].
        by intros (_ & _ & ? & _). }
    rewrite (bool_decide_eq_true_2 _ Hg).
    destruct race_keyword as [keyword|].
    + destruct (decide (He.col_category ∈ columns table)) as [Hk|Hk].
      2:{ rewrite (bool_decide_eq_false_2 _ Hk). split; [by intros [? ?]|].
          intros (_ & _ & _ & Hkw & _). by destruct (Hkw keyword eq_refl). }
      rewrite (bool_decide_eq_true_2 _ Hk).
      destruct (search keyword) as [found|] eqn:Hs.
      * split.
        -- intros [out (Hf & Hl & _)%names_of_returns].
           split; [done|]. split; [done|]. split; [done|]. split; [|done].
           intros ? [= <-]. split; [done|]. by rewrite Hs.
        -- intros (_ & _ & _ & _ & Hf & Hl). eexists.
           apply names_of_returns. done.
      * split; [by intros [? ?]|]. intros (_ & _ & _ & Hkw & _).
        destruct (Hkw keyword eq_refl) as [_ [? ?]]. congruence.
    + split.
      * intros [out (Hf & Hl & _)%names_of_returns].
        split; [done|]. split; [done|]. split; [done|]. split; done.
      * intros (_ & _ & _ & _ & Hf & Hl). eexists. apply names_of_returns. done.
  - intros Hc row e Hin Hrow. rewrite (bool_decide_eq_true_2 _ Hc).
    destruct (mapM _ (map (cell_of col_year) (entries table))) as [years|e'] eqn:Hy.
    + apply normalize_years in Hy as [_ Hall]. rewrite Forall_forall in Hall.
      destruct (Hall row Hin) as [y Hy]. congruence.
    + apply mapM_raises in Hy as (_ & a & _ & _ & _ & Ha).
      apply normalize_year_raises_kinds in Ha as [-> | ->].
      * by left.
      * right. by left.
Qed.

Lemma X16_filter_returns_witness :
  Participants.get_filtered_names_3plus_realtiming literal_search None None
    None None club_with_short_date
  ∈ [ Participants.Failed (Participants.Escaped IndexError);
      Participants.Failed (Participants.Escaped ValueError) ].
Proof.
  apply (proj2 (X16_filter_returns literal_search None None None None
                  club_with_short_date))
    with (row := entry "Tal" "Bar" "03/90" "male" "10000") (e := IndexError).
  - apply list_elem_of_lookup. by exists 2%nat.
  - apply list_elem_of_lookup. by exists 4%nat.
  - vm_compute. reflexivity.
Defined.

(** ** The filter of the shvoong pages and the choice by address *)








